(** * A shallow embedding of the flights data layer (package [datalayer])

    The Go package [datalayer] is a thin repository over a DynamoDB client:
    every exported method builds one request, sends it through the SDK and
    translates the answer.  The embedding keeps that shape.

    - The SDK's request and response structs are records, one module per
      struct, holding the fields the package sets or reads.
    - A method is a program of type [Prog T]: a tree of SDK calls
      ([action]s) whose continuations receive what the SDK returned.
      [exec] runs a program against any client (a [handler] over a state
      type) and returns the Go result, the final state and the list of
      calls that were issued, in order.
    - [dynamodbattribute.MarshalMap] / [UnmarshalMap] are pure library
      functions; the package is parametrised by them ([Codec]), and by the
      one function it calls and does not define ([PackageFunctions]).
    - Go's [(value, error)] results are pairs with an [option error]
      ([None] is [nil]); pointers are options; slices are lists ([[]] is the
      nil slice).

    Properties of the package alone are proved against every client.
    Properties that depend on what the store does with a request are proved
    against [Mem], a model of the store. *)

From stdpp Require Import gmap strings list vector.
From Stdlib Require Import Strings.Byte Strings.Ascii ZArith.

Local Open Scope string_scope.
Local Open Scope list_scope.
Local Open Scope nat_scope.

(** ** Go basics *)

(** A Go [error]: all the package ever does with one is call [Error()]. *)
Record error := mkError { Error : string }.

#[global] Instance error_eq_dec : EqDecision error.
Proof. solve_decision. Defined.

(** The line feed written as [\n] in the Go format strings. *)
Definition nl : string := String (Ascii.ascii_of_nat 10) EmptyString.

(** ** github.com/google/uuid *)
Module uuid.

(** [type UUID [16]byte] *)
Definition UUID : Type := vec byte 16.

Definition hexdigit (n : N) : Ascii.ascii :=
  match n with
  | 0 => "0" | 1 => "1" | 2 => "2" | 3 => "3" | 4 => "4" | 5 => "5"
  | 6 => "6" | 7 => "7" | 8 => "8" | 9 => "9" | 10 => "a" | 11 => "b"
  | 12 => "c" | 13 => "d" | 14 => "e" | _ => "f"
  end%N%char.

(** [hex.Encode]: two lower-case digits per byte, high nibble first. *)
Fixpoint hex_Encode (src : list byte) : string :=
  match src with
  | [] => ""
  | b :: rest =>
      String (hexdigit (Byte.to_N b / 16))
        (String (hexdigit (Byte.to_N b mod 16)) (hex_Encode rest))
  end.

(** The slice [u[lo:hi]]. *)
Definition slice (lo hi : nat) (u : list byte) : list byte :=
  take (hi - lo) (drop lo u).

(** [encodeHex]: the 8-4-4-4-12 layout of [UUID.String]. *)
Definition encodeHex (u : list byte) : string :=
  hex_Encode (slice 0 4 u) +:+ "-" +:+
  hex_Encode (slice 4 6 u) +:+ "-" +:+
  hex_Encode (slice 6 8 u) +:+ "-" +:+
  hex_Encode (slice 8 10 u) +:+ "-" +:+
  hex_Encode (slice 10 16 u).

Definition String (u : UUID) : string := encodeHex (vec_to_list u).

(** [b & mask | set] *)
Definition stamp_byte (mask set : N) (b : byte) : byte :=
  default b (Byte.of_N (N.lor (N.land (Byte.to_N b) mask) set)).

(** What [NewRandom] makes of sixteen random bytes: version 4 in
    [uuid[6]] ([& 0x0f | 0x40]) and the variant in [uuid[8]]
    ([& 0x3f | 0x80]). *)
Definition stamp (u : UUID) : UUID :=
  vinsert 6%fin (stamp_byte 15 64 (u !!! 6%fin))
    (vinsert 8%fin (stamp_byte 63 128 (u !!! 8%fin)) u).

End uuid.

(** ** github.com/aws/aws-sdk-go/service/dynamodb *)
Module dynamodb.

(** [AttributeValue], restricted to the shapes that occur in the two
    tables: strings, numbers (kept as the decimal text the wire format
    uses), string sets, NULL and booleans. *)
Module AttributeValue.
Inductive t :=
| S (s : string)
| N (n : string)
| SS (ss : list string)
| NULL
| BOOL (b : bool).

#[global] Instance eq_dec : EqDecision t.
Proof. solve_decision. Defined.
End AttributeValue.

(** [map[string]*AttributeValue]; the nil map is [∅]. *)
Abbreviation Item := (gmap string AttributeValue.t).

Module ScanInput.
Record t := { TableName : string; ExclusiveStartKey : option Item }.
End ScanInput.

Module ScanOutput.
Record t := { Items : list Item; LastEvaluatedKey : option Item }.
End ScanOutput.

Module PutItemInput.
Record t := { Item_ : Item; TableName : string }.
End PutItemInput.

Module DeleteItemInput.
Record t := { Key : Item; TableName : string }.
End DeleteItemInput.

Module GetItemInput.
Record t := { Key : Item; TableName : string }.
End GetItemInput.

Module GetItemOutput.
Record t := { Item_ : Item }.
End GetItemOutput.

Module UpdateItemInput.
Record t := {
  ExpressionAttributeNames : gmap string string;
  ExpressionAttributeValues : Item;
  Key : Item;
  TableName : string;
  UpdateExpression : string
}.
End UpdateItemInput.

End dynamodb.
Import dynamodb.

(** ** graph/model *)

(** Modelled from the spec: the package [graph/model] (generated code of the
    repository, not among the sources).  Its two records are given with the
    fields the spec's data model lists and [datalayer.go] sets; a
    [*Passenger] is an [option]. *)
Module model.

Record Passenger := { ID : string; Name : string }.

Record Flight := {
  Number : string;
  Capacity : Z;
  Captain : string;
  Plane : string;
  Passengers : list (option Passenger)   (* []*Passenger *)
}.

#[global] Instance Passenger_eq_dec : EqDecision Passenger.
Proof. solve_decision. Defined.

End model.

(** [type DynamoFlight struct] *)
Record DynamoFlight := {
  Number : string;
  Passengers : list string;
  Capacity : Z;
  Captain : string;
  Plane : string
}.

(** ** dynamodbattribute: the codec the package is parametrised by *)
Module dynamodbattribute.

Class Codec := {
  MarshalMap : model.Passenger -> Item + error;
  (** [UnmarshalMap(m, &item)] into a freshly zeroed [model.Passenger] *)
  UnmarshalMap_Passenger : Item -> model.Passenger + error;
  (** [UnmarshalMap(m, &item)] into a freshly zeroed [DynamoFlight] *)
  UnmarshalMap_DynamoFlight : Item -> DynamoFlight + error
}.

End dynamodbattribute.
Import dynamodbattribute.

(** ** Programs over the SDK *)

(** What the package asks of the outside world: the five SDK calls, a
    fresh UUID ([uuid.New], which panics when the random source fails; a
    run that panics returns nothing and has no outcome here) and a line on
    standard output ([fmt.Printf], [fmt.Println]). *)
Inductive action :=
| Scan (input : ScanInput.t)
| PutItem (input : PutItemInput.t)
| DeleteItem (input : DeleteItemInput.t)
| GetItem (input : GetItemInput.t)
| UpdateItem (input : UpdateItemInput.t)
| uuid_New
| Print (s : string).

(** What comes back; the outputs the package discards ([_, err := ...])
    carry no data. *)
Definition result (a : action) : Type :=
  match a with
  | Scan _ => (ScanOutput.t + error)%type
  | PutItem _ => (unit + error)%type
  | DeleteItem _ => (unit + error)%type
  | GetItem _ => (GetItemOutput.t + error)%type
  | UpdateItem _ => (unit + error)%type
  | uuid_New => uuid.UUID
  | Print _ => unit
  end.

Inductive Prog (T : Type) : Type :=
| ret (x : T)
| act (a : action) (k : result a -> Prog T).
Arguments ret {T} x.
Arguments act {T} a k.

Fixpoint bind {A B} (m : Prog A) (f : A -> Prog B) : Prog B :=
  match m with
  | ret x => f x
  | act a k => act a (fun r => bind (k r) f)
  end.

Definition call (a : action) : Prog (result a) := act a ret.

Notation "'let*' x ':=' m 'in' k" := (bind m (fun x => k))
  (at level 10, x name, m at level 100, k at level 200, only parsing).
Notation "m ;;; k" := (bind m (fun _ => k))
  (at level 100, k at level 200, right associativity, only parsing).

(** A client: how each call answers and what it does to the world. *)
Definition handler (St : Type) : Type := forall a : action, St -> result a * St.

(** The outcome of a run: Go result, final world, calls issued. *)
Fixpoint exec {St T} (h : handler St) (p : Prog T) (s : St) : T * St * list action :=
  match p with
  | ret x => (x, s, [])
  | act a k =>
      let '(r, s1) := h a s in
      let '(x, s2, tr) := exec h (k r) s1 in
      (x, s2, a :: tr)
  end.

Definition value {St T} (o : T * St * list action) : T := o.1.1.
Definition world {St T} (o : T * St * list action) : St := o.1.2.
Definition calls {St T} (o : T * St * list action) : list action := o.2.

(** ** The package *)
(** The package-level function [GetPassenger] that
    [convertDynamoFlightToFlight] calls without a receiver
    (datalayer.go:208).  The sources define the method of that name only,
    which a call without a receiver does not reach, and no function of that
    name: the function is a parameter of the package. *)
Class PackageFunctions := {
  func_GetPassenger : string -> Prog (option model.Passenger * option error)
}.

Section datalayer.
Context `{Codec} `{pkg : PackageFunctions}.

(** [func (d *Database) scanTable(tableName string)] *)
Definition scanTable (tableName : string) : Prog (ScanOutput.t + error) :=
  let params := {| ScanInput.TableName := tableName;
                   ScanInput.ExclusiveStartKey := None |} in
  call (Scan params).

(** [func (d *Database) CreatePassenger(name string)] *)
Definition CreatePassenger (name : string)
  : Prog (option model.Passenger * option error) :=
  let* u := call uuid_New in
  let item := {| model.ID := uuid.String u; model.Name := name |} in
  match MarshalMap item with
  | inr err =>
      call (Print ("Got error marshalling new passenger item: " +:+ Error err +:+ nl)) ;;;
      ret (None, Some err)
  | inl av =>
      let tableName := "passengers" in
      let input := {| PutItemInput.Item_ := av;
                      PutItemInput.TableName := tableName |} in
      let* r := call (PutItem input) in
      match r with
      | inr err =>
          call (Print ("Got error calling PutItem: " +:+ Error err +:+ nl)) ;;;
          ret (None, Some err)
      | inl _ => ret (Some item, None)
      end
  end.

(** [func (d *Database) DeletePassenger(passengerId string)] *)
Definition DeletePassenger (passengerId : string) : Prog (bool * option error) :=
  let input := {| DeleteItemInput.Key := {[ "id" := AttributeValue.S passengerId ]};
                  DeleteItemInput.TableName := "passengers" |} in
  let* r := call (DeleteItem input) in
  match r with
  | inr err =>
      call (Print ("Got error calling DeleteItem: " +:+ Error err +:+ nl)) ;;;
      ret (false, Some err)
  | inl _ => ret (true, None)
  end.

(** [func addToSet(db, table, keyAttribute, key, setAttribute, setItem)] *)
Definition addToSet (table keyAttribute key setAttribute setItem : string)
  : Prog (option error) :=
  let* r := call (UpdateItem
    {| UpdateItemInput.ExpressionAttributeNames := {[ "#0" := setAttribute ]};
       UpdateItemInput.ExpressionAttributeValues := {[ ":0" := AttributeValue.SS [setItem] ]};
       UpdateItemInput.Key := {[ keyAttribute := AttributeValue.S key ]};
       UpdateItemInput.TableName := table;
       UpdateItemInput.UpdateExpression := "ADD #0 :0" |}) in
  ret (match r with inr err => Some err | inl _ => None end).

(** [func deleteFromSet(db, table, keyAttribute, key, setAttribute, setItem)] *)
Definition deleteFromSet (table keyAttribute key setAttribute setItem : string)
  : Prog (option error) :=
  let* r := call (UpdateItem
    {| UpdateItemInput.ExpressionAttributeNames := {[ "#0" := setAttribute ]};
       UpdateItemInput.ExpressionAttributeValues := {[ ":0" := AttributeValue.SS [setItem] ]};
       UpdateItemInput.Key := {[ keyAttribute := AttributeValue.S key ]};
       UpdateItemInput.TableName := table;
       UpdateItemInput.UpdateExpression := "DELETE #0 :0" |}) in
  ret (match r with inr err => Some err | inl _ => None end).

(** [func (d *Database) BookFlight(flightNumber, passengerId string)] *)
Definition BookFlight (flightNumber passengerId : string)
  : Prog (bool * option error) :=
  let* err := addToSet "flights" "number" flightNumber "passengers" passengerId in
  match err with
  | Some e =>
      call (Print (Error e +:+ nl)) ;;;
      ret (false, Some e)
  | None => ret (true, None)
  end.

(** [func (d *Database) CancelBooking(flightNumber, passengerId string)] *)
Definition CancelBooking (flightNumber passengerId : string)
  : Prog (bool * option error) :=
  let* err := deleteFromSet "flights" "number" flightNumber "passengers" passengerId in
  match err with
  | Some e =>
      call (Print (Error e +:+ nl)) ;;;
      ret (false, Some e)
  | None => ret (true, None)
  end.

(** [func (d *Database) GetPassenger(passengerId string)] *)
Definition GetPassenger (passengerId : string)
  : Prog (option model.Passenger * option error) :=
  let input := {| GetItemInput.Key := {[ "id" := AttributeValue.S passengerId ]};
                  GetItemInput.TableName := "passengers" |} in
  let* r := call (GetItem input) in
  match r with
  | inr err =>
      call (Print ("Query API call failed: " +:+ Error err +:+ nl)) ;;;
      ret (None, Some err)
  | inl dynamoItem =>
      match UnmarshalMap_Passenger (GetItemOutput.Item_ dynamoItem) with
      | inr err =>
          call (Print ("Got error unmarshalling: " +:+ Error err +:+ nl)) ;;;
          ret (None, Some err)
      | inl item => ret (Some item, None)
      end
  end.

(** The [for _, passengerId := range dynamoFlight.Passengers] loop of
    [convertDynamoFlightToFlight]; [flight] is the record built so far.
    The call [GetPassenger(passengerId)] has no receiver: it is a call of
    the package-level function, [func_GetPassenger]. *)
Fixpoint convertDynamoFlightToFlight_loop (ids : list string) (flight : model.Flight)
  : Prog (option model.Flight * option error) :=
  match ids with
  | [] => ret (Some flight, None)
  | passengerId :: rest =>
      let* r := func_GetPassenger passengerId in
      match r with
      | (_, Some err) =>
          call (Print ("Query API call failed: " +:+ Error err +:+ nl)) ;;;
          ret (None, Some err)
      | (passenger, None) =>
          convertDynamoFlightToFlight_loop rest
            {| model.Number := model.Number flight;
               model.Capacity := model.Capacity flight;
               model.Captain := model.Captain flight;
               model.Plane := model.Plane flight;
               model.Passengers := model.Passengers flight ++ [passenger] |}
      end
  end.

(** [func convertDynamoFlightToFlight(dynamoFlight DynamoFlight)] *)
Definition convertDynamoFlightToFlight (dynamoFlight : DynamoFlight)
  : Prog (option model.Flight * option error) :=
  let flight := {| model.Number := Number dynamoFlight;
                   model.Capacity := Capacity dynamoFlight;
                   model.Captain := Captain dynamoFlight;
                   model.Plane := Plane dynamoFlight;
                   model.Passengers := [] |} in
  convertDynamoFlightToFlight_loop (Passengers dynamoFlight) flight.

(** The [for _, dynamoItem := range result.Items] loop of [GetAllFlights]. *)
Fixpoint GetAllFlights_loop (items : list Item) (flights : list (option model.Flight))
  : Prog (list (option model.Flight) * option error) :=
  match items with
  | [] => ret (flights, None)
  | dynamoItem :: rest =>
      match UnmarshalMap_DynamoFlight dynamoItem with
      | inr err =>
          call (Print ("Got error unmarshalling: " +:+ Error err +:+ nl)) ;;;
          ret ([], Some err)
      | inl item =>
          let* r := convertDynamoFlightToFlight item in
          match r with
          | (_, Some err) => ret ([], Some err)
          | (flight, None) => GetAllFlights_loop rest (flights ++ [flight])
          end
      end
  end.

(** [func (d *Database) GetAllFlights()] *)
Definition GetAllFlights : Prog (list (option model.Flight) * option error) :=
  let* r := scanTable "flights" in
  match r with
  | inr err =>
      call (Print ("Query API call failed: " +:+ Error err +:+ nl)) ;;;
      ret ([], Some err)
  | inl result => GetAllFlights_loop (ScanOutput.Items result) []
  end.

(** The [for _, dynamoItem := range result.Items] loop of [GetAllPassengers]. *)
Fixpoint GetAllPassengers_loop (items : list Item) (passengers : list (option model.Passenger))
  : Prog (list (option model.Passenger) * option error) :=
  match items with
  | [] => ret (passengers, None)
  | dynamoItem :: rest =>
      match UnmarshalMap_Passenger dynamoItem with
      | inr err =>
          call (Print ("Got error unmarshalling: " +:+ Error err +:+ nl)) ;;;
          ret ([], Some err)
      | inl item => GetAllPassengers_loop rest (passengers ++ [Some item])
      end
  end.

(** [func (d *Database) GetAllPassengers()] *)
Definition GetAllPassengers : Prog (list (option model.Passenger) * option error) :=
  let* r := scanTable "passengers" in
  match r with
  | inr err =>
      call (Print ("Query API call failed: " +:+ Error err +:+ nl)) ;;;
      ret ([], Some err)
  | inl result => GetAllPassengers_loop (ScanOutput.Items result) []
  end.

End datalayer.

(** Modelled from the spec: the package-level function [GetPassenger]
    called at datalayer.go:208, which the sources do not define.  The spec
    has [getAllFlights] "issue a [getPassenger] point lookup" for every id
    of a flight's set and knows one [getPassenger], the point lookup of the
    repository: the function is modelled as the method [GetPassenger] on
    the one shared database. *)
#[global] Instance spec_GetPassenger `{Codec} : PackageFunctions | 100 :=
  {| func_GetPassenger := GetPassenger |}.

(** ** The store *)

(** Modelled from the spec: the backing store and its client, which the
    package reaches through the SDK and which are no part of the sources.
    [Mem] is an in-memory store holding tables keyed by one string
    attribute, as the two tables of [dynamodb/dynamo.cf-template.yml] are
    ([flights] by [number], [passengers] by [id]), with the adapter
    semantics the spec lists: a put inserts or replaces; a delete succeeds
    whether or not an item existed; a get answers with the item or with no
    attributes; a scan answers with one response and is not resumed; the
    set updates unite a string set with an attribute ([ADD]) or subtract
    one from it ([DELETE]), dropping the attribute when the set becomes
    empty.  Where the spec leaves the store's behaviour open the model has a
    parameter: how many items one response holds ([PageLimit]), and whether
    an update of a key that holds no item creates the item or is refused
    ([UpdateCreates]).  A missing table is a [ResourceNotFoundException]
    and a key that does not fit the key schema a [ValidationException].
    Rows and set members are kept in lists, so that an arbitrary order of
    storage stands for the arbitrary order in which the store returns them. *)
Module Mem.

Record Table := {
  KeySchema : string;
  Rows : list Item;
  (** whether [UpdateItem] on a key that holds no item creates the item, as
      the service does, or is refused *)
  UpdateCreates : bool
}.

Record World := {
  Tables : gmap string Table;
  (** how many items one [Scan] response holds (the service's page cap) *)
  PageLimit : nat;
  (** the UUIDs [uuid.New] returns, one after the other, and how many of
      them were drawn *)
  Entropy : nat -> uuid.UUID;
  Draws : nat;
  Stdout : list string
}.

Definition ResourceNotFoundException : error :=
  mkError "ResourceNotFoundException: Requested resource not found".
Definition ValidationException : error :=
  mkError "ValidationException: One or more parameter values were invalid".
Definition ConditionalCheckFailedException : error :=
  mkError "ConditionalCheckFailedException: The conditional request failed".

Definition has_key (kn k : string) (row : Item) : bool :=
  bool_decide (row !! kn = Some (AttributeValue.S k)).

(** The key of a request: exactly the key attribute, a non-empty string. *)
Definition key_of (kn : string) (key : Item) : option string :=
  match key !! kn with
  | Some (AttributeValue.S k) =>
      if bool_decide (key = {[ kn := AttributeValue.S k ]} ∧ k ≠ "")
      then Some k else None
  | _ => None
  end.

Definition lookup_row (kn k : string) (rows : list Item) : option Item :=
  List.find (has_key kn k) rows.

Definition delete_row (kn k : string) (rows : list Item) : list Item :=
  List.filter (fun row => negb (has_key kn k row)) rows.

(** Apply [f] to the row with key [k]; where no row has that key, apply
    it to a new row holding only the key and add that row, if [create]. *)
Fixpoint update_row (create : bool) (kn k : string) (f : Item -> Item + error)
    (rows : list Item) : list Item + error :=
  match rows with
  | [] =>
      if create then
        match f {[ kn := AttributeValue.S k ]} with
        | inl row' => inl [row']
        | inr e => inr e
        end
      else inr ConditionalCheckFailedException
  | row :: rest =>
      if has_key kn k row then
        match f row with
        | inl row' => inl (row' :: rest)
        | inr e => inr e
        end
      else
        match update_row create kn k f rest with
        | inl rest' => inl (row :: rest')
        | inr e => inr e
        end
  end.

(** The tables of a store. *)
Abbreviation Store := (gmap string Table).

(** [tb] holding [rows] instead of its own. *)
Definition set_rows (tb : Table) (rows : list Item) : Table :=
  {| KeySchema := KeySchema tb; Rows := rows; UpdateCreates := UpdateCreates tb |}.

Definition with_rows (t : string) (tb : Table) (rows : list Item) (tables : Store) : Store :=
  <[ t := set_rows tb rows ]> tables.

Definition do_GetItem (input : GetItemInput.t) (tables : Store)
  : GetItemOutput.t + error :=
  match tables !! GetItemInput.TableName input with
  | None => inr ResourceNotFoundException
  | Some tb =>
      match key_of (KeySchema tb) (GetItemInput.Key input) with
      | None => inr ValidationException
      | Some k =>
          inl {| GetItemOutput.Item_ :=
                   default ∅ (lookup_row (KeySchema tb) k (Rows tb)) |}
      end
  end.

Definition do_DeleteItem (input : DeleteItemInput.t) (tables : Store)
  : (unit + error) * Store :=
  match tables !! DeleteItemInput.TableName input with
  | None => (inr ResourceNotFoundException, tables)
  | Some tb =>
      match key_of (KeySchema tb) (DeleteItemInput.Key input) with
      | None => (inr ValidationException, tables)
      | Some k =>
          (inl tt,
           with_rows (DeleteItemInput.TableName input) tb
             (delete_row (KeySchema tb) k (Rows tb)) tables)
      end
  end.

Definition do_PutItem (input : PutItemInput.t) (tables : Store)
  : (unit + error) * Store :=
  match tables !! PutItemInput.TableName input with
  | None => (inr ResourceNotFoundException, tables)
  | Some tb =>
      match PutItemInput.Item_ input !! KeySchema tb with
      | Some (AttributeValue.S k) =>
          if bool_decide (k = "") then (inr ValidationException, tables) else
          match update_row true (KeySchema tb) k
                  (fun _ => inl (PutItemInput.Item_ input)) (Rows tb) with
          | inl rows' => (inl tt, with_rows (PutItemInput.TableName input) tb rows' tables)
          | inr e => (inr e, tables)
          end
      | _ => (inr ValidationException, tables)
      end
  end.

(** [ADD attr vals] on one row. *)
Definition add_set (attr : string) (vals : list string) (row : Item) : Item + error :=
  match row !! attr with
  | None => inl (<[ attr := AttributeValue.SS (remove_dups vals) ]> row)
  | Some (AttributeValue.SS l) =>
      inl (<[ attr := AttributeValue.SS (l ++ list_difference (remove_dups vals) l) ]> row)
  | Some _ => inr ValidationException
  end.

(** [DELETE attr vals] on one row. *)
Definition delete_set (attr : string) (vals : list string) (row : Item) : Item + error :=
  match row !! attr with
  | None => inl row
  | Some (AttributeValue.SS l) =>
      match list_difference l vals with
      | [] => inl (delete attr row)
      | l' => inl (<[ attr := AttributeValue.SS l' ]> row)
      end
  | Some _ => inr ValidationException
  end.

(** The update expressions understood: [ADD name value] and
    [DELETE name value] with a string-set operand, [name] and [value]
    given directly or through the [#]/[:] placeholders of the request. *)
Definition parse_update (input : UpdateItemInput.t)
  : option (bool * string * list string) :=
  match String.words (UpdateItemInput.UpdateExpression input) with
  | [verb; name; value] =>
      match (if bool_decide (verb = "ADD") then Some true
             else if bool_decide (verb = "DELETE") then Some false
             else None),
            (match name with
             | String "#" _ => UpdateItemInput.ExpressionAttributeNames input !! name
             | _ => Some name
             end),
            UpdateItemInput.ExpressionAttributeValues input !! value with
      | Some add, Some attr, Some (AttributeValue.SS vals) => Some (add, attr, vals)
      | _, _, _ => None
      end
  | _ => None
  end.

Definition do_UpdateItem (input : UpdateItemInput.t) (tables : Store)
  : (unit + error) * Store :=
  match tables !! UpdateItemInput.TableName input with
  | None => (inr ResourceNotFoundException, tables)
  | Some tb =>
      match key_of (KeySchema tb) (UpdateItemInput.Key input), parse_update input with
      | Some k, Some (add, attr, vals) =>
          if bool_decide (attr = KeySchema tb) then (inr ValidationException, tables) else
          match update_row (UpdateCreates tb) (KeySchema tb) k
                  (if add then add_set attr vals else delete_set attr vals)
                  (Rows tb) with
          | inl rows' => (inl tt, with_rows (UpdateItemInput.TableName input) tb rows' tables)
          | inr e => (inr e, tables)
          end
      | _, _ => (inr ValidationException, tables)
      end
  end.

(** The rows that follow the row with key [k]. *)
Fixpoint rows_after (kn k : string) (rows : list Item) : list Item :=
  match rows with
  | [] => []
  | row :: rest => if has_key kn k row then rest else rows_after kn k rest
  end.

Definition key_map (kn : string) (row : Item) : Item :=
  match row !! kn with
  | Some v => {[ kn := v ]}
  | None => ∅
  end.

Definition do_Scan (input : ScanInput.t) (limit : nat) (tables : Store)
  : ScanOutput.t + error :=
  match tables !! ScanInput.TableName input with
  | None => inr ResourceNotFoundException
  | Some tb =>
      let start :=
        match ScanInput.ExclusiveStartKey input with
        | None => Some (Rows tb)
        | Some key =>
            match key_of (KeySchema tb) key with
            | Some k => Some (rows_after (KeySchema tb) k (Rows tb))
            | None => None
            end
        end in
      match start with
      | None => inr ValidationException
      | Some rows =>
          let page := take limit rows in
          inl {| ScanOutput.Items := page;
                 ScanOutput.LastEvaluatedKey :=
                   if bool_decide (length rows ≤ limit) then None
                   else key_map (KeySchema tb) <$> last page |}
      end
  end.

Definition with_tables (tables : Store) (w : World) : World :=
  {| Tables := tables; PageLimit := PageLimit w; Entropy := Entropy w;
     Draws := Draws w; Stdout := Stdout w |}.

Definition handle : handler World :=
  fun a =>
    match a return World -> result a * World with
    | Scan input => fun w => (do_Scan input (PageLimit w) (Tables w), w)
    | PutItem input => fun w =>
        let '(r, tables) := do_PutItem input (Tables w) in (r, with_tables tables w)
    | DeleteItem input => fun w =>
        let '(r, tables) := do_DeleteItem input (Tables w) in (r, with_tables tables w)
    | GetItem input => fun w => (do_GetItem input (Tables w), w)
    | UpdateItem input => fun w =>
        let '(r, tables) := do_UpdateItem input (Tables w) in (r, with_tables tables w)
    | uuid_New => fun w =>
        (Entropy w (Draws w),
         {| Tables := Tables w; PageLimit := PageLimit w;
            Entropy := Entropy w; Draws := Datatypes.S (Draws w);
            Stdout := Stdout w |})
    | Print s => fun w =>
        (tt,
         {| Tables := Tables w; PageLimit := PageLimit w;
            Entropy := Entropy w; Draws := Draws w;
            Stdout := Stdout w ++ [s] |})
    end.

(** *** The codec at the two record shapes *)

(** Modelled from the spec: the attribute-map encoding of the two records.
    [MarshalMap] names the attributes [id] and [name] and encodes an empty
    string as NULL; [UnmarshalMap] reads the attributes [number],
    [capacity], [captain], [plane] and [passengers], leaves the zero value
    where an attribute is absent or NULL (so that no attributes at all
    decode to the zero-valued record) and reports a type error where the
    attribute's type does not fit the field. *)

Definition UnmarshalTypeError : error :=
  mkError "UnmarshalTypeError: cannot unmarshal attribute into Go value".

Definition encode_string (s : string) : AttributeValue.t :=
  if bool_decide (s = "") then AttributeValue.NULL else AttributeValue.S s.

Definition decode_string (av : option AttributeValue.t) : string + error :=
  match av with
  | None | Some AttributeValue.NULL => inl ""
  | Some (AttributeValue.S s) => inl s
  | Some _ => inr UnmarshalTypeError
  end.

Definition decode_string_set (av : option AttributeValue.t) : list string + error :=
  match av with
  | None | Some AttributeValue.NULL => inl []
  | Some (AttributeValue.SS l) => inl l
  | Some _ => inr UnmarshalTypeError
  end.

Fixpoint parse_digits (acc : Z) (s : string) : option Z :=
  match s with
  | "" => Some acc
  | String c rest =>
      match Ascii.is_nat c with
      | Some d => parse_digits (10 * acc + Z.of_nat d) rest
      | None => None
      end
  end.

(** [strconv.ParseInt(n, 10, 64)] *)
Definition parse_int (s : string) : option Z :=
  let signed :=
    match s with
    | "" => None
    | String "-" (String _ _ as rest) => Z.opp <$> parse_digits 0 rest
    | String "+" (String _ _ as rest) => parse_digits 0 rest
    | _ => parse_digits 0 s
    end in
  match signed with
  | Some z => if bool_decide (- 2 ^ 63 ≤ z < 2 ^ 63)%Z then Some z else None
  | None => None
  end.

Definition decode_int (av : option AttributeValue.t) : Z + error :=
  match av with
  | None | Some AttributeValue.NULL => inl 0%Z
  | Some (AttributeValue.N n) =>
      match parse_int n with
      | Some z => inl z
      | None => inr UnmarshalTypeError
      end
  | Some _ => inr UnmarshalTypeError
  end.

Definition marshal_Passenger (p : model.Passenger) : Item + error :=
  inl {[ "id" := encode_string (model.ID p);
         "name" := encode_string (model.Name p) ]}.

Definition unmarshal_Passenger (m : Item) : model.Passenger + error :=
  match decode_string (m !! "id"), decode_string (m !! "name") with
  | inl id, inl name => inl {| model.ID := id; model.Name := name |}
  | inr e, _ | _, inr e => inr e
  end.

Definition unmarshal_DynamoFlight (m : Item) : DynamoFlight + error :=
  match decode_string (m !! "number"), decode_string_set (m !! "passengers"),
        decode_int (m !! "capacity"), decode_string (m !! "captain"),
        decode_string (m !! "plane") with
  | inl number, inl passengers, inl capacity, inl captain, inl plane =>
      inl {| Number := number; Passengers := passengers; Capacity := capacity;
             Captain := captain; Plane := plane |}
  | inr e, _, _, _, _ | _, inr e, _, _, _ | _, _, inr e, _, _
  | _, _, _, inr e, _ | _, _, _, _, inr e => inr e
  end.

#[global] Instance codec : Codec := {|
  MarshalMap := marshal_Passenger;
  UnmarshalMap_Passenger := unmarshal_Passenger;
  UnmarshalMap_DynamoFlight := unmarshal_DynamoFlight
|}.

(** The members of the string set [attr] of a row, in stored order. *)
Definition string_set (attr : string) (row : Item) : list string :=
  match row !! attr with
  | Some (AttributeValue.SS l) => l
  | _ => []
  end.

(** The row stored under key [k], or no attributes at all. *)
Definition row_of (tb : Table) (k : string) : Item :=
  default ∅ (lookup_row (KeySchema tb) k (Rows tb)).

(** The passenger ids booked on flight [f], in stored order. *)
Definition passenger_set (tables : Store) (f : string) : list string :=
  match tables !! "flights" with
  | None => []
  | Some tb => string_set "passengers" (row_of tb f)
  end.

(** What a lookup of passenger [id] decodes to. *)
Definition stored_passenger (pt : Table) (id : string) : model.Passenger + error :=
  unmarshal_Passenger (row_of pt id).

(** A flight row that decodes, all of whose passenger ids can be looked
    up and decoded. *)
Definition readable (pt : Table) (row : Item) : Prop :=
  exists df, unmarshal_DynamoFlight row = inl df /\
    Forall (fun id => id <> "" /\ exists P, stored_passenger pt id = inl P) (Passengers df).

End Mem.

(** ** Vocabulary of the statements *)

(** A request to the store, as opposed to a draw of randomness or a line
    on standard output. *)
Definition is_store_call (a : action) : bool :=
  match a with
  | uuid_New | Print _ => false
  | _ => true
  end.

Definition is_Scan (a : action) : bool :=
  match a with
  | Scan _ => true
  | _ => false
  end.

(** The boolean of a [(bool, error)] result says no more than whether the
    error is nil. *)
Definition flag_matches_error (r : bool * option error) : Prop :=
  (r.1 = true <-> r.2 = None) /\ (r.1 = false <-> r.2 <> None).

(** A listing that reports an error carries the nil slice. *)
Definition no_partial {A} (r : list A * option error) : Prop :=
  match r.2 with
  | Some _ => r.1 = []
  | None => True
  end.

(** The requests the package builds. *)
Definition scanInput (tableName : string) : ScanInput.t :=
  {| ScanInput.TableName := tableName; ScanInput.ExclusiveStartKey := None |}.

Definition deleteInput (passengerId : string) : DeleteItemInput.t :=
  {| DeleteItemInput.Key := {[ "id" := AttributeValue.S passengerId ]};
     DeleteItemInput.TableName := "passengers" |}.

Definition getInput (passengerId : string) : GetItemInput.t :=
  {| GetItemInput.Key := {[ "id" := AttributeValue.S passengerId ]};
     GetItemInput.TableName := "passengers" |}.

Definition setInput (verb flightNumber passengerId : string) : UpdateItemInput.t :=
  {| UpdateItemInput.ExpressionAttributeNames := {[ "#0" := "passengers" ]};
     UpdateItemInput.ExpressionAttributeValues :=
       {[ ":0" := AttributeValue.SS [passengerId] ]};
     UpdateItemInput.Key := {[ "number" := AttributeValue.S flightNumber ]};
     UpdateItemInput.TableName := "flights";
     UpdateItemInput.UpdateExpression := verb +:+ " #0 :0" |}.

Definition putInput (av : Item) : PutItemInput.t :=
  {| PutItemInput.Item_ := av; PutItemInput.TableName := "passengers" |}.

Definition putRequest (av : Item) : action := PutItem (putInput av).
Definition scanRequest (tableName : string) : action := Scan (scanInput tableName).
Definition deleteRequest (passengerId : string) : action := DeleteItem (deleteInput passengerId).
Definition getRequest (passengerId : string) : action := GetItem (getInput passengerId).
Definition setRequest (verb flightNumber passengerId : string) : action :=
  UpdateItem (setInput verb flightNumber passengerId).

(** The flight record [convertDynamoFlightToFlight] starts from. *)
Definition flight0 (df : DynamoFlight) : model.Flight :=
  {| model.Number := Number df; model.Capacity := Capacity df;
     model.Captain := Captain df; model.Plane := Plane df;
     model.Passengers := [] |}.

(** Decoding a list left to right, the first error winning. *)
Fixpoint collect {A B} (f : A -> B + error) (l : list A) : list B + error :=
  match l with
  | [] => inl []
  | x :: rest =>
      match f x with
      | inr e => inr e
      | inl y =>
          match collect f rest with
          | inl ys => inl (y :: ys)
          | inr e => inr e
          end
      end
  end.

(** The zero value of [model.Passenger]. *)
Definition zero_Passenger : model.Passenger := {| model.ID := ""; model.Name := "" |}.

(** [flight] with more passengers appended. *)
Definition with_passengers (flight : model.Flight) (ps : list (option model.Passenger))
  : model.Flight :=
  {| model.Number := model.Number flight;
     model.Capacity := model.Capacity flight;
     model.Captain := model.Captain flight;
     model.Plane := model.Plane flight;
     model.Passengers := model.Passengers flight ++ ps |}.

(** [flight] with one more passenger appended. *)
Definition with_passenger (flight : model.Flight) (passenger : option model.Passenger)
  : model.Flight :=
  {| model.Number := model.Number flight;
     model.Capacity := model.Capacity flight;
     model.Captain := model.Captain flight;
     model.Plane := model.Plane flight;
     model.Passengers := model.Passengers flight ++ [passenger] |}.

(** What the reference store does with the one update the package sends. *)
Definition set_op (add : bool) (p : string) : Item -> Item + error :=
  if add then Mem.add_set "passengers" [p] else Mem.delete_set "passengers" [p].

Definition verb_of (add : bool) : string := if add then "ADD" else "DELETE".

(** [fl] is the flight record of row [row] with its passenger ids
    replaced, in order, by what the passengers table holds for them. *)
Definition expanded (pt : Mem.Table) (row : Item) (fl : model.Flight) : Prop :=
  exists df ps,
    Mem.unmarshal_DynamoFlight row = inl df /\
    Forall2 (fun id P => Mem.stored_passenger pt id = inl P) (Passengers df) ps /\
    fl = with_passengers (flight0 df) (Some <$> ps).

(** The passenger ids a flight row holds. *)
Definition ids_of (row : Item) : list string :=
  match Mem.unmarshal_DynamoFlight row with
  | inl df => Passengers df
  | inr _ => []
  end.

(** ** Sample worlds *)
Module Demo.

(** the version 4 UUID made of sixteen bytes [n] *)
Definition uuid_of (n : nat) : uuid.UUID :=
  uuid.stamp (vreplicate 16 (default Byte.x00 (Byte.of_nat n))).

Definition alice : Item :=
  {[ "id" := AttributeValue.S "p1"; "name" := AttributeValue.S "Alice" ]}.
Definition bob : Item :=
  {[ "id" := AttributeValue.S "p2"; "name" := AttributeValue.S "Bob" ]}.
(** a passenger row whose name is not a string *)
Definition broken : Item :=
  {[ "id" := AttributeValue.S "p3"; "name" := AttributeValue.BOOL true ]}.

Definition Alice : model.Passenger := {| model.ID := "p1"; model.Name := "Alice" |}.
Definition Bob : model.Passenger := {| model.ID := "p2"; model.Name := "Bob" |}.

Definition flight_row (number captain : string) (passengers : list string) : Item :=
  let row : Item :=
    {[ "number" := AttributeValue.S number; "capacity" := AttributeValue.N "2";
       "captain" := AttributeValue.S captain; "plane" := AttributeValue.S "A320" ]} in
  match passengers with
  | [] => row
  | _ => <[ "passengers" := AttributeValue.SS passengers ]> row
  end.

Definition BA100 : Item := flight_row "BA100" "Ada" ["p2"; "p1"].
Definition LH400 : Item := flight_row "LH400" "Grace" ["p1"; "p3"; "p2"].
Definition QF1 : Item := flight_row "QF1" "Edsger" [].
(** a flight row whose capacity is not a number *)
Definition XX1 : Item :=
  {[ "number" := AttributeValue.S "XX1"; "capacity" := AttributeValue.S "many" ]}.

Definition flights (rows : list Item) : Mem.Table :=
  {| Mem.KeySchema := "number"; Mem.Rows := rows; Mem.UpdateCreates := true |}.
Definition passengers (rows : list Item) : Mem.Table :=
  {| Mem.KeySchema := "id"; Mem.Rows := rows; Mem.UpdateCreates := true |}.

Definition world_of (ft pt : Mem.Table) (limit : nat) : Mem.World :=
  {| Mem.Tables := {[ "flights" := ft; "passengers" := pt ]};
     Mem.PageLimit := limit;
     Mem.Entropy := uuid_of;
     Mem.Draws := 0;
     Mem.Stdout := [] |}.

Definition small : Mem.World :=
  world_of (flights [BA100; QF1]) (passengers [alice; bob]) 10.
Definition faulty : Mem.World :=
  world_of (flights [BA100; LH400; QF1]) (passengers [alice; bob; broken]) 10.
Definition garbled : Mem.World :=
  world_of (flights [QF1; XX1; BA100]) (passengers [alice; broken; bob]) 10.
Definition paged : Mem.World :=
  world_of (flights [BA100; QF1; LH400]) (passengers [alice; bob; broken]) 2.

(** what [BA100] and [LH400] decode to *)
Definition BA100_record : DynamoFlight :=
  {| Number := "BA100"; Passengers := ["p2"; "p1"]; Capacity := 2;
     Captain := "Ada"; Plane := "A320" |}.
Definition LH400_record : DynamoFlight :=
  {| Number := "LH400"; Passengers := ["p1"; "p3"; "p2"]; Capacity := 2;
     Captain := "Grace"; Plane := "A320" |}.

(** the text of [uuid_of 0] and of [uuid_of 1] *)
Definition id0 : string := "00000000-0000-4000-8000-000000000000".
Definition id1 : string := "01010101-0101-4101-8101-010101010101".

(** a store that refuses to update a flight it does not hold *)
Definition strict : Mem.World :=
  world_of {| Mem.KeySchema := "number"; Mem.Rows := [BA100; QF1];
              Mem.UpdateCreates := false |}
           (passengers [alice; bob]) 10.

(** a store in which no table was provisioned *)
Definition bare : Mem.World :=
  {| Mem.Tables := ∅; Mem.PageLimit := 10; Mem.Entropy := uuid_of;
     Mem.Draws := 0; Mem.Stdout := [] |}.

End Demo.


(** ** More vocabulary *)

Definition is_Print (a : action) : bool :=
  match a with
  | Print _ => true
  | _ => false
  end.

Definition is_uuid_New (a : action) : bool :=
  match a with
  | uuid_New => true
  | _ => false
  end.

(** A call that cannot change the store: a read of it or a line of output. *)
Definition is_read_only (a : action) : bool :=
  match a with
  | Scan _ | GetItem _ | Print _ => true
  | _ => false
  end.

(** A [(pointer, error)] result holds exactly one of the two. *)
Definition one_of_two {A} (r : option A * option error) : Prop :=
  (exists x, r = (Some x, None)) \/ (exists e, r = (None, Some e)).

(** The passenger ids an item of the flights table decodes to. *)
Definition passenger_ids `{Codec} (item : Item) : list string :=
  match UnmarshalMap_DynamoFlight item with
  | inl df => Passengers df
  | inr _ => []
  end.

(** The flight [fl] carries the fields of [df] and one passenger entry for
    each of its passenger ids. *)
Definition carries (df : DynamoFlight) (fl : model.Flight) : Prop :=
  model.Number fl = Number df /\ model.Capacity fl = Capacity df /\
  model.Captain fl = Captain df /\ model.Plane fl = Plane df /\
  length (model.Passengers fl) = length (Passengers df).

(** The entry [fo] of a flight listing is the flight of the scanned item
    [item]: not nil, and carrying what the item decodes to. *)
Definition lists `{Codec} (item : Item) (fo : option model.Flight) : Prop :=
  exists df fl, UnmarshalMap_DynamoFlight item = inl df /\ fo = Some fl /\ carries df fl.


(** The flight [fl] shows the fields of [df] and one non-nil passenger for
    each of its passenger ids. *)
Definition shows (df : DynamoFlight) (fl : model.Flight) : Prop :=
  model.Number fl = Number df /\ model.Capacity fl = Capacity df /\
  model.Captain fl = Captain df /\ model.Plane fl = Plane df /\
  length (model.Passengers fl) = length (Passengers df) /\
  Forall is_Some (model.Passengers fl).

(** The line an operation prints for the error [e], after the prefix [pre]. *)
Definition error_line (pre : string) (e : error) : action :=
  Print (pre +:+ Error e +:+ nl).

(** The package-level [GetPassenger] answers as a point lookup does: with
    a record after the one [GetItem] of the id, or with an error after that
    [GetItem] and a line that reports the error. *)
Definition point_lookup `{pkg : PackageFunctions} {St : Type} (h : handler St) : Prop :=
  forall (id : string) (s : St),
    let o := exec h (func_GetPassenger id) s in
    (exists item, value o = (Some item, None) /\ calls o = [getRequest id]) \/
    (exists e pre, value o = (None, Some e) /\
                   calls o = [getRequest id; error_line pre e] /\
                   pre ∈ ["Query API call failed: "; "Got error unmarshalling: "]).

(** The prefixes of the lines the package prints. *)
Definition prefixes : list string :=
  [ "Got error marshalling new passenger item: "; "Got error calling PutItem: ";
    "Got error calling DeleteItem: "; ""; "Query API call failed: ";
    "Got error unmarshalling: " ].

(** A run that returned no error printed nothing; a run that returned [e]
    printed [e] as the last thing it did. *)
Definition logged (err : option error) (tr : list action) : Prop :=
  match err with
  | None => List.filter is_Print tr = []
  | Some e => exists pre, pre ∈ prefixes /\ last tr = Some (error_line pre e)
  end.

(** More sample worlds. *)
Module Sample.

(** a random source that repeats itself *)
Definition stuck : Mem.World :=
  {| Mem.Tables := Mem.Tables Demo.small; Mem.PageLimit := 10;
     Mem.Entropy := fun _ => Demo.uuid_of 0; Mem.Draws := 0; Mem.Stdout := [] |}.

(** a flight that names a passenger nobody stored *)
Definition dangling : Mem.World :=
  Demo.world_of (Demo.flights [Demo.flight_row "BA100" "Ada" ["p2"; "p9"; "p1"]])
                (Demo.passengers [Demo.alice; Demo.bob]) 10.

(** a third passenger, and a store in which every booked id is stored *)
Definition carol : Item :=
  {[ "id" := AttributeValue.S "p3"; "name" := AttributeValue.S "Carol" ]}.
Definition Carol : model.Passenger := {| model.ID := "p3"; model.Name := "Carol" |}.
Definition full : Mem.World :=
  Demo.world_of (Demo.flights [Demo.BA100; Demo.LH400; Demo.QF1])
                (Demo.passengers [Demo.alice; Demo.bob; carol]) 10.

(** an empty store: both tables provisioned, nothing in them *)
Definition empty : Mem.World :=
  Demo.world_of (Demo.flights []) (Demo.passengers []) 10.

End Sample.
(** ** UUID strings *)
Section uuid_strings.
Import uuid.

Lemma hexdigit_inj m n :
  (m < 16)%N -> (n < 16)%N -> hexdigit m = hexdigit n -> m = n.
Proof.
  assert (Hall : Forall (fun i => Forall (fun j =>
            hexdigit (N.of_nat i) = hexdigit (N.of_nat j) -> i = j) (seq 0 16)) (seq 0 16))
    by compute_done.
  intros Hm Hn Heq. rewrite Forall_forall in Hall.
  specialize (Hall (N.to_nat m)). rewrite Forall_forall in Hall.
  rewrite <- (N2Nat.id m), <- (N2Nat.id n) in Heq |- *. f_equal.
  apply Hall; [apply elem_of_seq; lia | apply elem_of_seq; lia | done].
Qed.

Lemma hex_byte_inj a b :
  hexdigit (Byte.to_N a / 16) = hexdigit (Byte.to_N b / 16) ->
  hexdigit (Byte.to_N a mod 16) = hexdigit (Byte.to_N b mod 16) ->
  a = b.
Proof.
  intros Hhi Hlo.
  pose proof (Byte.to_N_bounded a) as Ha. pose proof (Byte.to_N_bounded b) as Hb.
  apply hexdigit_inj in Hhi; [|apply N.Div0.div_lt_upper_bound; lia..].
  apply hexdigit_inj in Hlo; [|apply N.mod_upper_bound; lia..].
  assert (Byte.to_N a = Byte.to_N b) as Heq.
  { rewrite (N.div_mod' (Byte.to_N a) 16), (N.div_mod' (Byte.to_N b) 16). congruence. }
  pose proof (Byte.of_to_N a) as Hoa. rewrite Heq, Byte.of_to_N in Hoa. congruence.
Qed.

(** A UUID prints as 36 characters; in particular never as the empty string. *)
Lemma String_length (u : UUID) : String.length (String u) = 36.
Proof. unfold String. inv_vec u. intros. reflexivity. Qed.

Lemma String_nonempty (u : UUID) : String u <> "".
Proof. intros Hu. pose proof (String_length u) as Hl. by rewrite Hu in Hl. Qed.

(** Distinct UUIDs print differently. *)
Lemma String_inj (u v : UUID) : String u = String v -> u = v.
Proof.
  unfold String. inv_vec u. inv_vec v. intros.
  cbn -[N.div N.modulo hexdigit Byte.to_N] in H.
  injection H as ?. 
  repeat match goal with
         | H1 : hexdigit (Byte.to_N ?a / 16) = hexdigit (Byte.to_N ?b / 16),
           H2 : hexdigit (Byte.to_N ?a mod 16) = hexdigit (Byte.to_N ?b mod 16) |- _ =>
             pose proof (hex_byte_inj a b H1 H2); subst; clear H1 H2
         end.
  reflexivity.
Qed.

End uuid_strings.

(** ** Running programs *)

Ltac outcome := unfold value, world, calls in *; simpl in *.
Ltac project := cbn [value world calls fst snd] in *.

Section generic.
Context `{Codec} `{PackageFunctions} {St : Type} (h : handler St).

Lemma exec_bind {A B} (m : Prog A) (f : A -> Prog B) s :
  exec h (bind m f) s =
  let o1 := exec h m s in
  let o2 := exec h (f (value o1)) (world o1) in
  (value o2, world o2, calls o1 ++ calls o2).
Proof.
  revert s. induction m as [x | a k IH]; intros s; simpl.
  - outcome. destruct (exec h (f x) s) as [[y s2] tr]. reflexivity.
  - destruct (h a s) as [r s1]. rewrite IH. outcome.
    destruct (exec h (k r) s1) as [[x s2] tr]. simpl.
    destruct (exec h (f x) s2) as [[y s3] tr']. reflexivity.
Qed.

Lemma exec_call a s : exec h (call a) s = ((h a s).1, (h a s).2, [a]).
Proof. simpl. destruct (h a s). reflexivity. Qed.

Lemma exec_scanTable t s :
  exec h (scanTable t) s = ((h (scanRequest t) s).1, (h (scanRequest t) s).2, [scanRequest t]).
Proof. exact (exec_call (scanRequest t) s). Qed.

Lemma exec_DeletePassenger s id :
  exec h (DeletePassenger id) s =
  match (h (deleteRequest id) s).1 with
  | inl _ => ((true, None), (h (deleteRequest id) s).2, [deleteRequest id])
  | inr err =>
      let msg := Print ("Got error calling DeleteItem: " +:+ Error err +:+ nl) in
      ((false, Some err), (h msg (h (deleteRequest id) s).2).2, [deleteRequest id; msg])
  end.
Proof.
  unfold deleteRequest, deleteInput. simpl. destruct (h _ s) as [[[]|err] s1]; simpl; [reflexivity|].
  destruct (h _ s1) as [[] s2]. reflexivity.
Qed.

Lemma exec_BookFlight s f p :
  exec h (BookFlight f p) s =
  match (h (setRequest "ADD" f p) s).1 with
  | inl _ => ((true, None), (h (setRequest "ADD" f p) s).2, [setRequest "ADD" f p])
  | inr err =>
      let msg := Print (Error err +:+ nl) in
      ((false, Some err), (h msg (h (setRequest "ADD" f p) s).2).2,
       [setRequest "ADD" f p; msg])
  end.
Proof.
  unfold setRequest, setInput. simpl. destruct (h _ s) as [[[]|err] s1]; simpl; [reflexivity|].
  destruct (h _ s1) as [[] s2]. reflexivity.
Qed.

Lemma exec_CancelBooking s f p :
  exec h (CancelBooking f p) s =
  match (h (setRequest "DELETE" f p) s).1 with
  | inl _ => ((true, None), (h (setRequest "DELETE" f p) s).2, [setRequest "DELETE" f p])
  | inr err =>
      let msg := Print (Error err +:+ nl) in
      ((false, Some err), (h msg (h (setRequest "DELETE" f p) s).2).2,
       [setRequest "DELETE" f p; msg])
  end.
Proof.
  unfold setRequest, setInput. simpl. destruct (h _ s) as [[[]|err] s1]; simpl; [reflexivity|].
  destruct (h _ s1) as [[] s2]. reflexivity.
Qed.

Lemma exec_GetPassenger s id :
  exec h (GetPassenger id) s =
  let s1 := (h (getRequest id) s).2 in
  match (h (getRequest id) s).1 with
  | inr err =>
      let msg := Print ("Query API call failed: " +:+ Error err +:+ nl) in
      ((None, Some err), (h msg s1).2, [getRequest id; msg])
  | inl dynamoItem =>
      match UnmarshalMap_Passenger (GetItemOutput.Item_ dynamoItem) with
      | inr err =>
          let msg := Print ("Got error unmarshalling: " +:+ Error err +:+ nl) in
          ((None, Some err), (h msg s1).2, [getRequest id; msg])
      | inl item => ((Some item, None), s1, [getRequest id])
      end
  end.
Proof.
  unfold getRequest, getInput. simpl. destruct (h _ s) as [[out|err] s1]; simpl.
  - destruct (UnmarshalMap_Passenger _) as [item|err]; simpl; [reflexivity|].
    destruct (h _ s1) as [[] s2]. reflexivity.
  - destruct (h _ s1) as [[] s2]. reflexivity.
Qed.

(** *** The passenger listing *)

Lemma exec_GetAllPassengers_loop items acc s :
  let o := exec h (GetAllPassengers_loop items acc) s in
  value o =
    match collect UnmarshalMap_Passenger items with
    | inl ps => (acc ++ (Some <$> ps), None)
    | inr e => ([], Some e)
    end /\
  List.filter is_store_call (calls o) = [].
Proof.
  revert acc s. induction items as [|item rest IH]; intros acc s; simpl.
  - outcome. rewrite app_nil_r. done.
  - destruct (UnmarshalMap_Passenger item) as [p|e]; simpl.
    + destruct (IH (acc ++ [Some p]) s) as [-> ->].
      destruct (collect _ rest); [|done].
      rewrite <- app_assoc. done.
    + destruct (h _ s) as [[] s1]. done.
Qed.

Lemma exec_GetAllPassengers s :
  let o := exec h GetAllPassengers s in
  value o =
    match (h (scanRequest "passengers") s).1 with
    | inr e => ([], Some e)
    | inl out =>
        match collect UnmarshalMap_Passenger (ScanOutput.Items out) with
        | inl ps => (Some <$> ps, None)
        | inr e => ([], Some e)
        end
    end /\
  List.filter is_store_call (calls o) = [scanRequest "passengers"].
Proof.
  unfold GetAllPassengers. rewrite exec_bind, exec_scanTable. outcome.
  destruct (h _ s) as [[out|e] s1]; simpl.
  - pose proof (exec_GetAllPassengers_loop (ScanOutput.Items out) [] s1) as [Hv Hc].
    outcome. rewrite Hv, Hc. done.
  - destruct (h _ s1) as [[] s2]. done.
Qed.

(** *** The flight listing *)

Lemma convert_loop_cons id rest fl s :
  exec h (convertDynamoFlightToFlight_loop (id :: rest) fl) s =
  let o := exec h (func_GetPassenger id) s in
  match value o with
  | (_, Some err) =>
      let msg := Print ("Query API call failed: " +:+ Error err +:+ nl) in
      ((None, Some err), (h msg (world o)).2, calls o ++ [msg])
  | (passenger, None) =>
      let o2 := exec h (convertDynamoFlightToFlight_loop rest (with_passenger fl passenger))
                  (world o) in
      (value o2, world o2, calls o ++ calls o2)
  end.
Proof.
  cbn [convertDynamoFlightToFlight_loop]. rewrite exec_bind.
  destruct (exec h (func_GetPassenger id) s) as [[[p [e|]] s1] tr]; outcome.
  - destruct (h _ s1) as [[] s2]. reflexivity.
  - reflexivity.
Qed.

Lemma flights_loop_cons item rest acc s :
  exec h (GetAllFlights_loop (item :: rest) acc) s =
  match UnmarshalMap_DynamoFlight item with
  | inr err =>
      let msg := Print ("Got error unmarshalling: " +:+ Error err +:+ nl) in
      (([], Some err), (h msg s).2, [msg])
  | inl df =>
      let o := exec h (convertDynamoFlightToFlight df) s in
      match value o with
      | (_, Some err) => (([], Some err), world o, calls o)
      | (flight, None) =>
          let o2 := exec h (GetAllFlights_loop rest (acc ++ [flight])) (world o) in
          (value o2, world o2, calls o ++ calls o2)
      end
  end.
Proof.
  cbn [GetAllFlights_loop].
  destruct (UnmarshalMap_DynamoFlight item) as [df|e].
  - rewrite exec_bind.
    destruct (exec h (convertDynamoFlightToFlight df) s) as [[[fl [e|]] s1] tr]; outcome.
    + rewrite app_nil_r. reflexivity.
    + reflexivity.
  - simpl. destruct (h _ s) as [[] s1]. reflexivity.
Qed.



(** A conversion either fails with no flight or yields a flight that
    gained one passenger per id. *)
Lemma convert_loop_value ids fl s :
  match value (exec h (convertDynamoFlightToFlight_loop ids fl) s) with
  | (Some fl', None) =>
      length (model.Passengers fl') = length (model.Passengers fl) + length ids
  | (None, Some _) => True
  | _ => False
  end.
Proof.
  revert fl s. induction ids as [|id rest IH]; intros fl s.
  - outcome. lia.
  - rewrite convert_loop_cons. cbv zeta.
    destruct (exec h (func_GetPassenger id) s) as [[[p [e|]] s1] tr]; outcome; [done|].
    specialize (IH (with_passenger fl p) s1).
    destruct (exec h _ s1) as [[[[fl'|] [e|]] s2] tr2]; outcome; try done.
    rewrite IH, length_app. simpl. lia.
Qed.

Lemma convert_loop_app l1 l2 fl s :
  exec h (convertDynamoFlightToFlight_loop (l1 ++ l2) fl) s =
  let o1 := exec h (convertDynamoFlightToFlight_loop l1 fl) s in
  match value o1 with
  | (Some fl1, None) =>
      let o2 := exec h (convertDynamoFlightToFlight_loop l2 fl1) (world o1) in
      (value o2, world o2, calls o1 ++ calls o2)
  | _ => o1
  end.
Proof.
  revert fl s. induction l1 as [|id rest IH]; intros fl s.
  - outcome. destruct (exec h _ s) as [[v s1] tr]. reflexivity.
  - rewrite <- app_comm_cons, !convert_loop_cons. cbv zeta.
    destruct (exec h (func_GetPassenger id) s) as [[[p [e|]] s1] tr]; outcome; [done|].
    rewrite IH. cbv zeta.
    pose proof (convert_loop_value rest (with_passenger fl p) s1) as Hv.
    destruct (exec h (convertDynamoFlightToFlight_loop rest _) s1)
      as [[[[fl'|] [e|]] s2] tr2]; outcome; try done.
    destruct (exec h _ s2) as [[v s3] tr3]. simpl. by rewrite app_assoc.
Qed.


(** A listing of flights either fails with the nil slice or yields one
    flight per item, none of them nil. *)
Lemma flights_loop_value items acc s :
  match value (exec h (GetAllFlights_loop items acc) s) with
  | (flights, None) =>
      exists fls, flights = acc ++ (Some <$> fls) /\ length fls = length items
  | (flights, Some _) => flights = []
  end.
Proof.
  revert acc s. induction items as [|item rest IH]; intros acc s.
  - outcome. exists []. by rewrite app_nil_r.
  - rewrite flights_loop_cons.
    destruct (UnmarshalMap_DynamoFlight item) as [df|e]; [|done]. cbv zeta.
    pose proof (convert_loop_value (Passengers df) (flight0 df) s) as Hc.
    change (convertDynamoFlightToFlight_loop (Passengers df) (flight0 df))
      with (convertDynamoFlightToFlight df) in Hc.
    destruct (exec h (convertDynamoFlightToFlight df) s) as [[[[fl|] [e|]] s1] tr];
      outcome; try done.
    specialize (IH (acc ++ [Some fl]) s1).
    destruct (exec h _ s1) as [[[fls [e|]] s2] tr2]; outcome; [done|].
    destruct IH as (fls' & -> & Hlen).
    exists (fl :: fls'). rewrite <- app_assoc. simpl. by rewrite Hlen.
Qed.

Lemma convert_loop_carries ids fl s fl' :
  value (exec h (convertDynamoFlightToFlight_loop ids fl) s) = (Some fl', None) ->
  model.Number fl' = model.Number fl /\ model.Capacity fl' = model.Capacity fl /\
  model.Captain fl' = model.Captain fl /\ model.Plane fl' = model.Plane fl /\
  length (model.Passengers fl') = length (model.Passengers fl) + length ids.
Proof.
  revert fl s. induction ids as [|id rest IH]; intros fl s.
  - outcome. intros [= <-]. repeat split. lia.
  - rewrite convert_loop_cons. cbv zeta.
    destruct (exec h (func_GetPassenger id) s) as [[[p [e|]] s1] tr]; outcome; [done|].
    specialize (IH (with_passenger fl p) s1).
    destruct (exec h _ s1) as [[v s2] tr2]; outcome.
    intros Hv. destruct (IH Hv) as (-> & -> & -> & -> & ->).
    repeat split. rewrite length_app. simpl. lia.
Qed.

(** A listing of flights that succeeds returns one flight per item, in the
    order of the items, each carrying what its item decodes to. *)
Lemma flights_loop_rows items acc s l :
  value (exec h (GetAllFlights_loop items acc) s) = (l, None) ->
  exists fos, l = acc ++ fos /\ Forall2 lists items fos.
Proof.
  revert acc s l. induction items as [|item rest IH]; intros acc s l.
  - outcome. intros [= <-]. exists []. by rewrite app_nil_r.
  - rewrite flights_loop_cons.
    destruct (UnmarshalMap_DynamoFlight item) as [df|e] eqn:Hdf; [|done]. cbv zeta.
    pose proof (convert_loop_value (Passengers df) (flight0 df) s) as Hc.
    pose proof (convert_loop_carries (Passengers df) (flight0 df) s) as Hf.
    change (convertDynamoFlightToFlight_loop (Passengers df) (flight0 df))
      with (convertDynamoFlightToFlight df) in Hc, Hf.
    destruct (exec h (convertDynamoFlightToFlight df) s) as [[[[fl|] [e|]] s1] tr];
      outcome; try done.
    intros Hv. destruct (IH _ _ _ Hv) as (fos & -> & Hfos).
    exists (Some fl :: fos). rewrite <- app_assoc. split; [done|].
    constructor; [|done]. exists df, fl. split; [done|]. split; [done|].
    exact (Hf fl eq_refl).
Qed.

Lemma flights_loop_app l1 l2 acc s :
  exec h (GetAllFlights_loop (l1 ++ l2) acc) s =
  let o1 := exec h (GetAllFlights_loop l1 acc) s in
  match value o1 with
  | (flights, None) =>
      let o2 := exec h (GetAllFlights_loop l2 flights) (world o1) in
      (value o2, world o2, calls o1 ++ calls o2)
  | (_, Some _) => o1
  end.
Proof.
  revert acc s. induction l1 as [|item rest IH]; intros acc s.
  - outcome. destruct (exec h _ s) as [[v s1] tr]. reflexivity.
  - rewrite <- app_comm_cons, !flights_loop_cons.
    destruct (UnmarshalMap_DynamoFlight item) as [df|e]; [|done]. cbv zeta.
    destruct (exec h (convertDynamoFlightToFlight df) s) as [[[fl [e|]] s1] tr];
      outcome; [done|].
    rewrite IH. cbv zeta.
    destruct (exec h (GetAllFlights_loop rest _) s1) as [[[fls [e|]] s2] tr2];
      outcome; [done|].
    destruct (exec h _ s2) as [[v s3] tr3]. simpl. by rewrite app_assoc.
Qed.

Lemma exec_GetAllFlights s :
  exec h GetAllFlights s =
  let s1 := (h (scanRequest "flights") s).2 in
  match (h (scanRequest "flights") s).1 with
  | inr err =>
      let msg := Print ("Query API call failed: " +:+ Error err +:+ nl) in
      (([], Some err), (h msg s1).2, [scanRequest "flights"; msg])
  | inl out =>
      let o := exec h (GetAllFlights_loop (ScanOutput.Items out) []) s1 in
      (value o, world o, scanRequest "flights" :: calls o)
  end.
Proof.
  unfold GetAllFlights. rewrite exec_bind, exec_scanTable. outcome.
  destruct (h _ s) as [[out|e] s1]; simpl; [reflexivity|].
  destruct (h _ s1) as [[] s2]. reflexivity.
Qed.

Lemma collect_length {A B} (f : A -> B + error) l ys :
  collect f l = inl ys -> length ys = length l.
Proof.
  revert ys. induction l as [|x l IH]; intros ys; simpl.
  - by intros [= <-].
  - destruct (f x); [|done]. destruct (collect f l); [|done].
    intros [= <-]. simpl. by rewrite (IH _ eq_refl).
Qed.


Lemma collect_first_error {A B} (f : A -> B + error) pre bad post e :
  Forall (fun x => exists y, f x = inl y) pre -> f bad = inr e ->
  collect f (pre ++ bad :: post) = inr e.
Proof.
  intros Hpre Hbad. induction Hpre as [|x pre [y Hy] _ IH]; simpl.
  - by rewrite Hbad.
  - by rewrite Hy, IH.
Qed.


Lemma exec_CreatePassenger s name :
  exec h (CreatePassenger name) s =
  let s1 := (h uuid_New s).2 in
  let item := {| model.ID := uuid.String (h uuid_New s).1; model.Name := name |} in
  match MarshalMap item with
  | inr err =>
      let msg := Print ("Got error marshalling new passenger item: " +:+ Error err +:+ nl) in
      ((None, Some err), (h msg s1).2, [uuid_New; msg])
  | inl av =>
      match (h (putRequest av) s1).1 with
      | inr err =>
          let msg := Print ("Got error calling PutItem: " +:+ Error err +:+ nl) in
          ((None, Some err), (h msg (h (putRequest av) s1).2).2,
           [uuid_New; putRequest av; msg])
      | inl _ => ((Some item, None), (h (putRequest av) s1).2, [uuid_New; putRequest av])
      end
  end.
Proof.
  unfold CreatePassenger, putRequest, putInput. simpl.
  destruct (h uuid_New s) as [u s1]. simpl.
  destruct (MarshalMap _) as [av|err]; simpl.
  - destruct (h _ s1) as [[[]|err] s2]; simpl; [reflexivity|].
    destruct (h _ s2) as [[] s3]. reflexivity.
  - destruct (h _ s1) as [[] s2]. reflexivity.
Qed.

End generic.

(** ** The reference store *)
Section reference_store.
Import Mem.

Lemma has_key_true kn k (row : Item) :
  has_key kn k row = true <-> row !! kn = Some (AttributeValue.S k).
Proof. unfold has_key. rewrite bool_decide_eq_true. done. Qed.

Lemma key_of_singleton kn kn' k :
  key_of kn {[ kn' := AttributeValue.S k ]} =
  if bool_decide (kn = kn' /\ k <> "") then Some k else None.
Proof.
  unfold key_of. destruct (decide (kn = kn')) as [->|Hne].
  - rewrite lookup_singleton_eq.
    destruct (decide (k = "")) as [->|Hk].
    + by rewrite !bool_decide_false by (by intros [_ ?]).
    + by rewrite !bool_decide_true by done.
  - rewrite lookup_singleton_ne by done. by rewrite bool_decide_false by (by intros [? _]).
Qed.

Lemma lookup_row_Some kn k rows row :
  lookup_row kn k rows = Some row -> row !! kn = Some (AttributeValue.S k).
Proof.
  unfold lookup_row. intros Hf. apply List.find_some in Hf as [_ Hk].
  by apply has_key_true.
Qed.

Lemma lookup_delete_row kn k rows : lookup_row kn k (delete_row kn k rows) = None.
Proof.
  unfold lookup_row, delete_row. induction rows as [|row rows IH]; [done|].
  simpl. destruct (has_key kn k row) eqn:Hk; simpl; [done|]. by rewrite Hk.
Qed.

(** [update_row] rewrites the row a lookup finds (or a fresh key-only
    row) and a later lookup finds the rewritten row. *)
Lemma update_row_spec c kn k f rows rows' :
  update_row c kn k f rows = inl rows' ->
  exists row',
    f (default {[ kn := AttributeValue.S k ]} (lookup_row kn k rows)) = inl row' /\
    (row' !! kn = Some (AttributeValue.S k) -> lookup_row kn k rows' = Some row').
Proof.
  unfold lookup_row. revert rows'. induction rows as [|row rows IH]; intros rows'; simpl.
  - destruct c; [|done]. destruct (f _) as [row'|] eqn:Hf; [|done]. intros [= <-].
    exists row'. split; [done|]. intros Hk. simpl.
    by rewrite (proj2 (has_key_true kn k row') Hk).
  - destruct (has_key kn k row) eqn:Hk; simpl.
    + destruct (f row) as [row'|] eqn:Hf; [|done]. intros [= <-].
      exists row'. split; [done|]. intros Hk'. simpl.
      by rewrite (proj2 (has_key_true kn k row') Hk').
    + destruct (update_row c kn k f rows) as [rest'|] eqn:Hu; [|done]. intros [= <-].
      destruct (IH _ eq_refl) as (row' & Hf & Hl).
      exists row'. split; [done|]. intros Hk'. simpl. rewrite Hk. auto.
Qed.

Lemma update_row_id c kn k f rows row :
  lookup_row kn k rows = Some row -> f row = inl row ->
  update_row c kn k f rows = inl rows.
Proof.
  unfold lookup_row. induction rows as [|r rows IH]; simpl; [done|].
  destruct (has_key kn k r).
  - intros [= ->] ->. done.
  - intros Hl Hf. by rewrite IH.
Qed.

Lemma default_row_key kn k rows :
  default ({[ kn := AttributeValue.S k ]} : Item) (lookup_row kn k rows) !! kn
  = Some (AttributeValue.S k).
Proof.
  destruct (lookup_row kn k rows) as [row|] eqn:Hl; simpl.
  - by eapply lookup_row_Some.
  - apply lookup_singleton_eq.
Qed.

(** An update that is idempotent on rows and keeps the key is
    idempotent on tables. *)
Lemma update_row_idem c kn k f rows rows' :
  (forall r r', f r = inl r' -> f r' = inl r' /\ r' !! kn = r !! kn) ->
  update_row c kn k f rows = inl rows' ->
  update_row c kn k f rows' = inl rows'.
Proof.
  intros Hf Hu. destruct (update_row_spec _ _ _ _ _ _ Hu) as (row' & Hr & Hl).
  destruct (Hf _ _ Hr) as [Hidem Hkey].
  rewrite default_row_key in Hkey.
  eapply update_row_id; eauto.
Qed.

(** *** String sets *)

Lemma list_difference_covered (a b : list string) :
  (forall x, x ∈ a -> x ∈ b) -> list_difference a b = [].
Proof.
  intros Hsub. apply elem_of_nil_inv. intros x Hx.
  apply list_elem_of_difference in Hx as [Hx Hnx]. auto.
Qed.

Lemma list_difference_disjoint (a b : list string) :
  (forall x, x ∈ a -> x ∉ b) -> list_difference a b = a.
Proof.
  induction a as [|x a IH]; intros Hdis; simpl; [done|].
  destruct (decide_rel elem_of x b) as [Hin|_].
  - destruct (Hdis x); [left|done].
  - f_equal. apply IH. intros y Hy. apply Hdis. by right.
Qed.

Lemma list_difference_twice (a b : list string) :
  list_difference (list_difference a b) b = list_difference a b.
Proof.
  apply list_difference_disjoint. intros x Hx.
  by apply list_elem_of_difference in Hx as [_ Hx].
Qed.

Lemma add_set_spec attr vals row row' :
  add_set attr vals row = inl row' ->
  string_set attr row' =
    string_set attr row ++ list_difference (remove_dups vals) (string_set attr row) /\
  forall kn, kn <> attr -> row' !! kn = row !! kn.
Proof.
  unfold add_set, string_set.
  destruct (row !! attr) as [[]|] eqn:Hr; intros [= <-];
    rewrite lookup_insert_eq; (split; [|by intros; apply lookup_insert_ne]).
  - done.
  - simpl. by rewrite list_difference_disjoint by (intros ? _; apply not_elem_of_nil).
Qed.

Lemma add_set_idem attr vals row row' :
  add_set attr vals row = inl row' -> add_set attr vals row' = inl row'.
Proof.
  unfold add_set.
  destruct (row !! attr) as [[s|n|ss| |b]|] eqn:Hr; try done; intros Heq;
    injection Heq as Heq; subst row';
    rewrite lookup_insert_eq, insert_insert_eq.
  - rewrite (list_difference_covered (remove_dups vals)
               (ss ++ list_difference (remove_dups vals) ss)); [by rewrite app_nil_r|].
    intros x Hx. apply elem_of_app.
    destruct (decide (x ∈ ss)); [by left|right].
    by apply list_elem_of_difference.
  - rewrite (list_difference_covered (remove_dups vals)); [by rewrite app_nil_r|]. done.
Qed.

(** Adding members that are all present changes nothing. *)
Lemma add_set_present attr vals (row : Item) l :
  row !! attr = Some (AttributeValue.SS l) -> (forall x, x ∈ vals -> x ∈ l) ->
  add_set attr vals row = inl row.
Proof.
  intros Hr Hin. unfold add_set. rewrite Hr.
  rewrite list_difference_covered, app_nil_r.
  - by rewrite insert_id.
  - intros x Hx. apply Hin. by apply elem_of_remove_dups.
Qed.

Lemma delete_set_spec attr vals row row' :
  delete_set attr vals row = inl row' ->
  string_set attr row' = list_difference (string_set attr row) vals /\
  forall kn, kn <> attr -> row' !! kn = row !! kn.
Proof.
  unfold delete_set, string_set.
  destruct (row !! attr) as [[]|] eqn:Hr; try done.
  - destruct (list_difference ss vals) as [|x l'] eqn:Hd; intros [= <-].
    + rewrite lookup_delete_eq. split; [done|]. by intros; apply lookup_delete_ne.
    + rewrite lookup_insert_eq. split; [done|]. by intros; apply lookup_insert_ne.
  - intros [= <-]. by rewrite Hr.
Qed.

Lemma delete_set_idem attr vals row row' :
  delete_set attr vals row = inl row' -> delete_set attr vals row' = inl row'.
Proof.
  unfold delete_set.
  destruct (row !! attr) as [[]|] eqn:Hr; try done.
  - destruct (list_difference ss vals) as [|x l'] eqn:Hd; intros [= <-].
    + by rewrite lookup_delete_eq.
    + rewrite lookup_insert_eq, <- Hd, list_difference_twice, Hd.
      by rewrite insert_insert_eq.
  - intros [= <-]. by rewrite Hr.
Qed.

(** *** The two set requests against the store *)

Lemma do_UpdateItem_set add f p tables :
  do_UpdateItem (setInput (verb_of add) f p) tables =
  match tables !! "flights" with
  | None => (inr ResourceNotFoundException, tables)
  | Some tb =>
      if bool_decide (KeySchema tb = "number" /\ f <> "") then
        match update_row (UpdateCreates tb) "number" f (set_op add p) (Rows tb) with
        | inl rows' => (inl tt, with_rows "flights" tb rows' tables)
        | inr e => (inr e, tables)
        end
      else (inr ValidationException, tables)
  end.
Proof.
  unfold do_UpdateItem.
  replace (parse_update (setInput (verb_of add) f p))
    with (Some (add, "passengers", [p])) by (by destruct add).
  change (UpdateItemInput.TableName _) with "flights".
  change (UpdateItemInput.Key _) with ({[ "number" := AttributeValue.S f ]} : Item).
  destruct (tables !! "flights") as [tb|]; [|done].
  rewrite key_of_singleton.
  destruct (bool_decide (KeySchema tb = "number" /\ f <> "")) eqn:Hk; [|done].
  apply bool_decide_eq_true in Hk as [-> _]. by destruct add.
Qed.

Lemma with_rows_same t tb (tables : Store) :
  tables !! t = Some tb -> with_rows t tb (Rows tb) tables = tables.
Proof. intros Ht. unfold with_rows. apply insert_id. rewrite Ht. by destruct tb. Qed.

Lemma set_op_idem add p row row' :
  set_op add p row = inl row' ->
  set_op add p row' = inl row' /\ row' !! "number" = row !! "number".
Proof.
  destruct add; simpl; intros Hop.
  - split; [by eapply add_set_idem|]. by eapply add_set_spec.
  - split; [by eapply delete_set_idem|]. by eapply delete_set_spec.
Qed.

(** Sending the same update again answers the same and leaves the
    tables as the first one left them. *)
Lemma do_UpdateItem_set_twice add f p tables :
  let r := do_UpdateItem (setInput (verb_of add) f p) tables in
  do_UpdateItem (setInput (verb_of add) f p) r.2 = r.
Proof.
  cbv zeta. rewrite (do_UpdateItem_set add f p tables).
  destruct (tables !! "flights") as [tb|] eqn:Ht; simpl.
  2: { by rewrite do_UpdateItem_set, Ht. }
  destruct (bool_decide (KeySchema tb = "number" /\ f <> "")) eqn:Hk; simpl.
  2: { by rewrite do_UpdateItem_set, Ht, Hk. }
  destruct (update_row (UpdateCreates tb) "number" f (set_op add p) (Rows tb))
    as [rows'|e] eqn:Hu; simpl.
  2: { by rewrite do_UpdateItem_set, Ht, Hk, Hu. }
  rewrite do_UpdateItem_set. unfold with_rows at 1. rewrite lookup_insert_eq.
  simpl. rewrite Hk.
  rewrite (update_row_idem _ _ _ _ _ _ (set_op_idem add p) Hu).
  unfold with_rows. simpl. by rewrite insert_insert_eq.
Qed.

Lemma handle_set add f p w :
  handle (setRequest (verb_of add) f p) w =
  let r := do_UpdateItem (setInput (verb_of add) f p) (Tables w) in
  (r.1, with_tables r.2 w).
Proof.
  change (handle (setRequest (verb_of add) f p) w)
    with (let '(r, t) := do_UpdateItem (setInput (verb_of add) f p) (Tables w) in
          (r, with_tables t w)).
  by destruct (do_UpdateItem _ _).
Qed.

Lemma Mem_BookFlight w f p :
  let r := do_UpdateItem (setInput "ADD" f p) (Tables w) in
  let o := exec handle (BookFlight f p) w in
  Tables (world o) = r.2 /\
  value o = match r.1 with inl _ => (true, None) | inr e => (false, Some e) end.
Proof.
  cbv zeta. rewrite exec_BookFlight, (handle_set true). cbv zeta.
  by destruct (do_UpdateItem _ _) as [[[]|e] t].
Qed.

Lemma Mem_CancelBooking w f p :
  let r := do_UpdateItem (setInput "DELETE" f p) (Tables w) in
  let o := exec handle (CancelBooking f p) w in
  Tables (world o) = r.2 /\
  value o = match r.1 with inl _ => (true, None) | inr e => (false, Some e) end.
Proof.
  cbv zeta. rewrite exec_CancelBooking, (handle_set false). cbv zeta.
  by destruct (do_UpdateItem _ _) as [[[]|e] t].
Qed.

Lemma update_row_ok c kn k f rows row' :
  c = true \/ is_Some (lookup_row kn k rows) ->
  f (default {[ kn := AttributeValue.S k ]} (lookup_row kn k rows)) = inl row' ->
  exists rows', update_row c kn k f rows = inl rows'.
Proof.
  unfold lookup_row. induction rows as [|row rows IH]; simpl.
  - intros [->|[? [=]]] ->. eauto.
  - destruct (has_key kn k row); simpl.
    + intros _ ->. eauto.
    + intros Hc Hf. destruct (IH Hc Hf) as [rows' ->]. eauto.
Qed.

Lemma string_set_default (kn k : string) (o : option Item) :
  kn <> "passengers" ->
  string_set "passengers" (default {[ kn := AttributeValue.S k ]} o)
  = string_set "passengers" (default ∅ o).
Proof.
  intros Hne. destruct o; [done|]. unfold string_set. simpl.
  by rewrite lookup_singleton_ne, lookup_empty.
Qed.

(** A successful update: where it found the flight and what it left. *)
Lemma do_UpdateItem_set_inl add f p tables u tables' :
  do_UpdateItem (setInput (verb_of add) f p) tables = (inl u, tables') ->
  exists tb rows' row',
    tables !! "flights" = Some tb /\ KeySchema tb = "number" /\ f <> "" /\
    tables' = with_rows "flights" tb rows' tables /\
    set_op add p (default {[ "number" := AttributeValue.S f ]}
                    (lookup_row "number" f (Rows tb))) = inl row' /\
    lookup_row "number" f rows' = Some row'.
Proof.
  rewrite do_UpdateItem_set.
  destruct (tables !! "flights") as [tb|]; [|done].
  destruct (bool_decide (KeySchema tb = "number" /\ f <> "")) eqn:Hk; [|done].
  apply bool_decide_eq_true in Hk as [Hk Hf].
  destruct (update_row _ _ _ _ _) as [rows'|] eqn:Hu; [|done]. intros [= _ <-].
  destruct (update_row_spec _ _ _ _ _ _ Hu) as (row' & Hop & Hl).
  exists tb, rows', row'. repeat split; try done.
  apply Hl. destruct (set_op_idem _ _ _ _ Hop) as [_ ->]. apply default_row_key.
Qed.

Lemma passenger_set_with_rows tb rows' row' f (tables : Store) :
  KeySchema tb = "number" -> lookup_row "number" f rows' = Some row' ->
  passenger_set (with_rows "flights" tb rows' tables) f = string_set "passengers" row'.
Proof.
  intros Hk Hl. unfold passenger_set, with_rows, row_of.
  rewrite lookup_insert_eq. simpl. by rewrite Hk, Hl.
Qed.

Lemma passenger_set_lookup tb f (tables : Store) :
  tables !! "flights" = Some tb -> KeySchema tb = "number" ->
  passenger_set tables f =
  string_set "passengers"
    (default {[ "number" := AttributeValue.S f ]} (lookup_row "number" f (Rows tb))).
Proof.
  intros Ht Hk. unfold passenger_set, row_of. rewrite Ht, Hk.
  by rewrite string_set_default.
Qed.

(** The passenger set after a booking that succeeded. *)
Lemma passenger_set_ADD f p tables u tables' :
  do_UpdateItem (setInput "ADD" f p) tables = (inl u, tables') ->
  passenger_set tables' f =
  passenger_set tables f ++ list_difference [p] (passenger_set tables f).
Proof.
  intros Hd. apply (do_UpdateItem_set_inl true) in Hd
    as (tb & rows' & row' & Ht & Hk & Hf & -> & Hop & Hl).
  rewrite (passenger_set_with_rows _ _ row'), (passenger_set_lookup tb) by done.
  simpl in Hop. by apply add_set_spec in Hop as [-> _].
Qed.

(** The passenger set after a cancellation that succeeded. *)
Lemma passenger_set_DELETE f p tables u tables' :
  do_UpdateItem (setInput "DELETE" f p) tables = (inl u, tables') ->
  passenger_set tables' f = list_difference (passenger_set tables f) [p].
Proof.
  intros Hd. apply (do_UpdateItem_set_inl false) in Hd
    as (tb & rows' & row' & Ht & Hk & Hf & -> & Hop & Hl).
  rewrite (passenger_set_with_rows _ _ row'), (passenger_set_lookup tb) by done.
  simpl in Hop. by apply delete_set_spec in Hop as [-> _].
Qed.

Lemma add_set_typed attr vals row row' :
  add_set attr vals row = inl row' -> exists l, row' !! attr = Some (AttributeValue.SS l).
Proof.
  unfold add_set. destruct (row !! attr) as [[]|]; try done;
    intros [= <-]; rewrite lookup_insert_eq; eauto.
Qed.

Lemma delete_set_ok attr vals (row : Item) l :
  row !! attr = Some (AttributeValue.SS l) -> exists row', delete_set attr vals row = inl row'.
Proof. intros Hr. unfold delete_set. rewrite Hr. destruct (list_difference l vals); eauto. Qed.

(** A cancellation succeeds on a flight whose passengers form a string set. *)
Lemma do_DELETE_ok (tables : Store) tb row f p l :
  tables !! "flights" = Some tb -> KeySchema tb = "number" -> f <> "" ->
  lookup_row "number" f (Rows tb) = Some row ->
  row !! "passengers" = Some (AttributeValue.SS l) ->
  exists tables', do_UpdateItem (setInput "DELETE" f p) tables = (inl tt, tables').
Proof.
  intros Ht Hk Hf Hl Hr. rewrite (do_UpdateItem_set false), Ht.
  rewrite bool_decide_true by done.
  destruct (delete_set_ok "passengers" [p] row l Hr) as [row' Hd].
  destruct (update_row_ok (UpdateCreates tb) "number" f (set_op false p) (Rows tb) row')
    as [rows' ->].
  - right. by rewrite Hl.
  - by rewrite Hl.
  - eauto.
Qed.

(** C3.  Booking the same passenger on the same flight twice leaves the
    store's tables, and so the flight's passenger set, exactly as the
    first booking left them, and answers as the first booking did; and
    booking a passenger who is already in the flight's set changes no
    table at all. *)
Theorem BookFlight_idempotent (w : World) (f p : string) :
  let o1 := exec handle (BookFlight f p) w in
  let o2 := exec handle (BookFlight f p) (world o1) in
  Tables (world o2) = Tables (world o1) /\
  passenger_set (Tables (world o2)) f = passenger_set (Tables (world o1)) f /\
  value o2 = value o1 /\
  (p ∈ passenger_set (Tables w) f -> Tables (world o1) = Tables w).
Proof.
  cbv zeta.
  destruct (Mem_BookFlight w f p) as [Ht1 Hv1].
  destruct (Mem_BookFlight (world (exec handle (BookFlight f p) w)) f p) as [Ht2 Hv2].
  rewrite Ht1 in Ht2, Hv2.
  pose proof (do_UpdateItem_set_twice true f p (Tables w)) as Htwice.
  cbv zeta in Htwice. change (verb_of true) with "ADD" in Htwice.
  rewrite Htwice in Ht2, Hv2.
  repeat split.
  - by rewrite Ht1, Ht2.
  - by rewrite Ht1, Ht2.
  - by rewrite Hv1, Hv2.
  - intros Hin. rewrite Ht1. clear -Hin. unfold passenger_set in Hin.
    rewrite (do_UpdateItem_set true).
    destruct (Tables w !! "flights") as [tb|] eqn:Ht; [|done].
    destruct (bool_decide (KeySchema tb = "number" /\ f <> "")) eqn:Hk; [|done].
    apply bool_decide_eq_true in Hk as [Hk Hf].
    unfold row_of, string_set in Hin. rewrite Hk in Hin.
    destruct (lookup_row "number" f (Rows tb)) as [row|] eqn:Hl; simpl in Hin;
      [|by apply not_elem_of_nil in Hin].
    destruct (row !! "passengers") as [[]|] eqn:Hr;
      try (by apply not_elem_of_nil in Hin).
    rewrite (update_row_id _ _ _ _ _ row Hl).
    + simpl. by rewrite with_rows_same.
    + simpl. eapply add_set_present; [done|].
      intros x Hx. by apply list_elem_of_singleton in Hx as ->.
Qed.

(** C4.  After a booking that succeeded, cancelling it succeeds and leaves the
    flight's passenger set without [p] (and otherwise as it was); a
    second cancellation succeeds as well and changes no table. *)
Theorem CancelBooking_after_BookFlight (w : World) (f p : string) :
  value (exec handle (BookFlight f p) w) = (true, None) ->
  let w1 := world (exec handle (BookFlight f p) w) in
  let o2 := exec handle (CancelBooking f p) w1 in
  let o3 := exec handle (CancelBooking f p) (world o2) in
  (p ∈ passenger_set (Tables w1) f) /\
  value o2 = (true, None) /\
  (p ∉ passenger_set (Tables (world o2)) f) /\
  passenger_set (Tables (world o2)) f = list_difference (passenger_set (Tables w1) f) [p] /\
  value o3 = (true, None) /\
  Tables (world o3) = Tables (world o2).
Proof.
  intros Hbook. cbv zeta.
  destruct (Mem_BookFlight w f p) as [Ht1 Hv1]. rewrite Hbook in Hv1.
  set (w1 := world (exec handle (BookFlight f p) w)) in *.
  destruct (do_UpdateItem (setInput "ADD" f p) (Tables w)) as [[u|e] t1] eqn:Hadd;
    [|done]. cbn [fst snd] in Ht1.
  pose proof (passenger_set_ADD _ _ _ _ _ Hadd) as Hset1.
  pose proof (do_UpdateItem_set_inl true _ _ _ _ _ Hadd)
    as (tb & rows1 & row1 & Ht & Hk & Hf & Ht1' & Hop & Hl).
  destruct (add_set_typed _ _ _ _ Hop) as [l1 Hr1].
  destruct (do_DELETE_ok t1 (set_rows tb rows1) row1 f p l1)
    as [t2 Hdel]; try done.
  { rewrite Ht1'. apply lookup_insert_eq. }
  destruct (Mem_CancelBooking w1 f p) as [Ht2 Hv2]. rewrite Ht1, Hdel in Ht2, Hv2.
  cbn [fst snd] in Ht2, Hv2.
  set (w2 := world (exec handle (CancelBooking f p) w1)) in *.
  destruct (Mem_CancelBooking w2 f p) as [Ht3 Hv3]. rewrite Ht2 in Ht3, Hv3.
  pose proof (do_UpdateItem_set_twice false f p t1) as Htwice.
  cbv zeta in Htwice. change (verb_of false) with "DELETE" in Htwice.
  rewrite Hdel in Htwice.
  cbn [fst snd] in Htwice. rewrite Htwice in Ht3, Hv3. cbn [fst snd] in Ht3, Hv3.
  pose proof (passenger_set_DELETE _ _ _ _ _ Hdel) as Hset2.
  rewrite Ht1, Ht2, Ht3, Hset2.
  repeat split; try done.
  - rewrite Hset1. apply elem_of_app.
    destruct (decide (p ∈ passenger_set (Tables w) f)); [by left|right].
    rewrite list_difference_disjoint; [by left|].
    intros x Hx. by apply list_elem_of_singleton in Hx as ->.
  - intros Hin. apply list_elem_of_difference in Hin as [_ Hn]. apply Hn. by left.
Qed.

(** *** Passengers in the store *)

Lemma do_DeleteItem_passenger (tables : Store) pt id :
  tables !! "passengers" = Some pt -> KeySchema pt = "id" -> id <> "" ->
  do_DeleteItem (deleteInput id) tables =
  (inl tt, with_rows "passengers" pt (delete_row "id" id (Rows pt)) tables).
Proof.
  intros Ht Hk Hid. unfold do_DeleteItem.
  change (DeleteItemInput.TableName _) with "passengers".
  change (DeleteItemInput.Key _) with ({[ "id" := AttributeValue.S id ]} : Item).
  rewrite Ht, key_of_singleton, bool_decide_true by done. by rewrite Hk.
Qed.

Lemma do_GetItem_passenger (tables : Store) pt id :
  tables !! "passengers" = Some pt -> KeySchema pt = "id" -> id <> "" ->
  do_GetItem (getInput id) tables = inl {| GetItemOutput.Item_ := row_of pt id |}.
Proof.
  intros Ht Hk Hid. unfold do_GetItem.
  change (GetItemInput.TableName _) with "passengers".
  change (GetItemInput.Key _) with ({[ "id" := AttributeValue.S id ]} : Item).
  by rewrite Ht, key_of_singleton, bool_decide_true by done.
Qed.

Lemma Mem_DeletePassenger w id :
  let r := do_DeleteItem (deleteInput id) (Tables w) in
  let o := exec handle (DeletePassenger id) w in
  Tables (world o) = r.2 /\
  value o = match r.1 with inl _ => (true, None) | inr e => (false, Some e) end.
Proof.
  cbv zeta. rewrite exec_DeletePassenger.
  change (handle (deleteRequest id) w)
    with (let '(r, t) := do_DeleteItem (deleteInput id) (Tables w) in (r, with_tables t w)).
  by destruct (do_DeleteItem _ _) as [[[]|e] t].
Qed.

(** A lookup in a store that holds the passengers table answers with
    what the stored row decodes to, and changes nothing. *)
Lemma Mem_GetPassenger w pt id item :
  Tables w !! "passengers" = Some pt -> KeySchema pt = "id" -> id <> "" ->
  stored_passenger pt id = inl item ->
  exec handle (GetPassenger id) w = ((Some item, None), w, [getRequest id]).
Proof.
  intros Ht Hk Hid Hs. rewrite exec_GetPassenger. cbv zeta.
  change (handle (getRequest id) w) with (do_GetItem (getInput id) (Tables w), w).
  cbn [fst snd]. rewrite (do_GetItem_passenger _ pt) by done.
  change (UnmarshalMap_Passenger _) with (stored_passenger pt id). by rewrite Hs.
Qed.

Lemma stored_passenger_deleted pt id :
  stored_passenger (set_rows pt (delete_row (KeySchema pt) id (Rows pt))) id
  = inl zero_Passenger.
Proof. unfold stored_passenger, row_of. simpl. by rewrite lookup_delete_row. Qed.

Lemma encode_decode_string s : decode_string (Some (encode_string s)) = inl s.
Proof. unfold encode_string. by case_bool_decide; subst. Qed.

(** Decoding what [MarshalMap] made of a passenger gives the passenger back. *)
Lemma unmarshal_marshal_Passenger p av :
  marshal_Passenger p = inl av -> unmarshal_Passenger av = inl p.
Proof.
  intros [= <-]. unfold unmarshal_Passenger.
  rewrite lookup_insert_eq, lookup_insert_ne, lookup_singleton_eq by done.
  rewrite !encode_decode_string. by destruct p.
Qed.

(** Creating a passenger in a store that holds the passengers table
    succeeds and stores the marshalled record under the new id. *)
Lemma Mem_CreatePassenger w pt name :
  Tables w !! "passengers" = Some pt -> KeySchema pt = "id" ->
  let o := exec handle (CreatePassenger name) w in
  let p := {| model.ID := uuid.String (Entropy w (Draws w)); model.Name := name |} in
  value o = (Some p, None) /\
  exists rows',
    Tables (world o) = with_rows "passengers" pt rows' (Tables w) /\
    stored_passenger (set_rows pt rows') (model.ID p) = inl p.
Proof.
  intros Ht Hk. cbv zeta. rewrite exec_CreatePassenger. cbv zeta.
  change (handle uuid_New w).1 with (Entropy w (Draws w)).
  set (p := {| model.ID := _; model.Name := name |}).
  destruct (MarshalMap p) as [av|] eqn:Hav; [|done].
  pose proof (unmarshal_marshal_Passenger p av Hav) as Hun.
  injection Hav as Hav.
  set (w1 := (handle uuid_New w).2).
  change (handle (putRequest av) w1)
    with (let '(r, t) := do_PutItem (putInput av) (Tables w) in (r, with_tables t w1)).
  unfold do_PutItem.
  change (PutItemInput.TableName _) with "passengers".
  change (PutItemInput.Item_ _) with av.
  rewrite Ht, Hk.
  assert (av !! "id" = Some (AttributeValue.S (model.ID p))) as Hid.
  { rewrite <- Hav. rewrite lookup_insert_eq. unfold encode_string.
    by rewrite bool_decide_false by apply String_nonempty. }
  rewrite Hid, bool_decide_false by apply String_nonempty.
  destruct (update_row true "id" (model.ID p) (fun _ => inl av) (Rows pt))
    as [rows'|e] eqn:Hu.
  - split; [done|]. exists rows'. split; [done|].
    destruct (update_row_spec _ _ _ _ _ _ Hu) as (row' & [= <-] & Hl).
    unfold stored_passenger, row_of. simpl. simpl in Hl. by rewrite Hk, Hl.
  - by destruct (update_row_ok true "id" (model.ID p) (fun _ => inl av) (Rows pt) av
                   (or_introl eq_refl) eq_refl)
      as [rows' Hok]; rewrite Hok in Hu.
Qed.

(** *** The flight listing on the store *)

Lemma with_passengers_nil fl : with_passengers fl [] = fl.
Proof. destruct fl. unfold with_passengers. simpl. by rewrite app_nil_r. Qed.

Lemma with_passengers_cons fl p ps :
  with_passengers (with_passenger fl p) ps = with_passengers fl (p :: ps).
Proof. unfold with_passengers, with_passenger. simpl. by rewrite <- app_assoc. Qed.

Lemma Mem_convert_loop w pt ids fl :
  Tables w !! "passengers" = Some pt -> KeySchema pt = "id" ->
  Forall (fun id => id <> "" /\ exists P, stored_passenger pt id = inl P) ids ->
  exists ps,
    Forall2 (fun id P => stored_passenger pt id = inl P) ids ps /\
    exec handle (convertDynamoFlightToFlight_loop ids fl) w =
    ((Some (with_passengers fl (Some <$> ps)), None), w, getRequest <$> ids).
Proof.
  intros Ht Hk Hall. revert fl.
  induction Hall as [|id ids [Hid [P HP]] _ IH]; intros fl.
  - exists []. split; [constructor|]. simpl. by rewrite with_passengers_nil.
  - destruct (IH (with_passenger fl (Some P))) as (ps & Hps & Hex).
    exists (P :: ps). split; [by constructor|].
    rewrite convert_loop_cons.
    change (func_GetPassenger id) with (GetPassenger id).
    rewrite (Mem_GetPassenger w pt id P) by done.
    cbv zeta. outcome. rewrite Hex. simpl. by rewrite with_passengers_cons.
Qed.

Lemma Mem_flights_loop w pt items acc :
  Tables w !! "passengers" = Some pt -> KeySchema pt = "id" ->
  Forall (readable pt) items ->
  exists fls,
    Forall2 (expanded pt) items fls /\
    exec handle (GetAllFlights_loop items acc) w =
    ((acc ++ (Some <$> fls), None), w, getRequest <$> (items ≫= ids_of)).
Proof.
  intros Ht Hk Hall. revert acc.
  induction Hall as [|row items (df & Hdf & Hids) _ IH]; intros acc.
  - exists []. split; [constructor|]. simpl. by rewrite app_nil_r.
  - destruct (Mem_convert_loop w pt (Passengers df) (flight0 df) Ht Hk Hids)
      as (ps & Hps & Hex).
    destruct (IH (acc ++ [Some (with_passengers (flight0 df) (Some <$> ps))]))
      as (fls & Hfls & Hex').
    exists (with_passengers (flight0 df) (Some <$> ps) :: fls). split.
    + constructor; [|done]. by exists df, ps.
    + rewrite flights_loop_cons.
      change (UnmarshalMap_DynamoFlight row) with (unmarshal_DynamoFlight row).
      rewrite Hdf. cbv zeta.
      change (convertDynamoFlightToFlight df)
        with (convertDynamoFlightToFlight_loop (Passengers df) (flight0 df)).
      rewrite Hex. outcome. rewrite Hex'. simpl.
      rewrite <- app_assoc. simpl.
      assert (ids_of row = Passengers df) as -> by (unfold ids_of; by rewrite Hdf).
      by rewrite fmap_app.
Qed.

Lemma Mem_GetAllFlights w ft pt :
  Tables w !! "flights" = Some ft ->
  Tables w !! "passengers" = Some pt -> KeySchema pt = "id" ->
  Forall (readable pt) (take (PageLimit w) (Rows ft)) ->
  exists fls,
    Forall2 (expanded pt) (take (PageLimit w) (Rows ft)) fls /\
    exec handle GetAllFlights w =
    ((Some <$> fls, None), w,
     scanRequest "flights" :: (getRequest <$> (take (PageLimit w) (Rows ft) ≫= ids_of))).
Proof.
  intros Hf Ht Hk Hall. rewrite exec_GetAllFlights. cbv zeta.
  change (handle (scanRequest "flights") w)
    with (do_Scan (scanInput "flights") (PageLimit w) (Tables w), w).
  unfold do_Scan. change (ScanInput.TableName _) with "flights". rewrite Hf.
  cbn [fst snd scanInput ScanInput.ExclusiveStartKey ScanOutput.Items].
  destruct (Mem_flights_loop w pt (take (PageLimit w) (Rows ft)) [] Ht Hk Hall)
    as (fls & Hfls & Hex).
  exists fls. split; [done|]. by rewrite Hex.
Qed.

Lemma Forall2_stored pt ids ps :
  Forall2 (fun id P => stored_passenger pt id = inl P) ids ps ->
  ps = (fun id => match stored_passenger pt id with
                  | inl P => P
                  | inr _ => zero_Passenger
                  end) <$> ids.
Proof. induction 1 as [|id P ids ps HP _ IH]; simpl; [done|]. by rewrite HP, IH. Qed.

(** C1.  With the package-level [GetPassenger] modelled from the spec as
    the point lookup ([spec_GetPassenger]), in a store whose first page of
    flights is readable: [GetAllFlights] scans the flights table once, then
    looks up every passenger id of every scanned flight, once each, flight
    after flight and in the order the store keeps the ids, and changes
    nothing; it returns one flight per scanned row, each the row's own
    number, capacity, captain and plane with, for every id of the row's
    set and in the same order, the passenger record stored under that id,
    and nothing else.  So the flight returned for a row whose passenger set
    is [{p1, p2}], in whichever order the store keeps it, has a passenger
    list that is a permutation of the two records stored under [p1] and
    [p2]. *)
Theorem GetAllFlights_expands_passenger_set (w : World) (ft pt : Table) :
  Tables w !! "flights" = Some ft ->
  Tables w !! "passengers" = Some pt -> KeySchema pt = "id" ->
  let page := take (PageLimit w) (Rows ft) in
  Forall (readable pt) page ->
  let o := exec handle (GetAllFlights (pkg := spec_GetPassenger)) w in
  exists fls : list model.Flight,
    value o = (Some <$> fls, None) /\
    world o = w /\
    calls o = scanRequest "flights" :: (getRequest <$> (page ≫= ids_of)) /\
    Forall2 (expanded pt) page fls /\
    forall (i : nat) (row : Item) (df : DynamoFlight)
           (p1 p2 : string) (P1 P2 : model.Passenger),
      page !! i = Some row ->
      unmarshal_DynamoFlight row = inl df ->
      Passengers df ≡ₚ [p1; p2] ->
      stored_passenger pt p1 = inl P1 -> stored_passenger pt p2 = inl P2 ->
      exists fl,
        fls !! i = Some fl /\
        model.Number fl = Number df /\ model.Capacity fl = Capacity df /\
        model.Captain fl = Captain df /\ model.Plane fl = Plane df /\
        model.Passengers fl ≡ₚ [Some P1; Some P2].
Proof.
  intros Hf Ht Hk page Hall. cbv zeta.
  destruct (Mem_GetAllFlights w ft pt Hf Ht Hk Hall) as (fls & Hfls & Hex).
  fold page in Hex. rewrite Hex. project.
  exists fls. do 4 (split; [done|]).
  intros i row df p1 p2 P1 P2 Hrow Hdf Hperm HP1 HP2.
  destruct (Forall2_lookup_l _ _ _ _ _ Hfls Hrow) as (fl & Hfl & df' & ps & Hdf' & Hps & ->).
  rewrite Hdf in Hdf'. injection Hdf' as <-.
  exists (with_passengers (flight0 df) (Some <$> ps)).
  do 5 (split; [done|]).
  simpl. rewrite (Forall2_stored _ _ _ Hps), Hperm. simpl. by rewrite HP1, HP2.
Qed.

End reference_store.

(** ** Properties of the package against any client *)
Section package_properties.
Context `{Codec} `{PackageFunctions} {St : Type} (h : handler St).

(** C10.  Each of [DeletePassenger], [BookFlight] and [CancelBooking] returns
    either [(true, nil)] or [(false, err)] with [err] non-nil: the
    boolean is true exactly when the error is nil. *)
Theorem flag_tracks_error (s : St) (id f p : string) :
  Forall (fun r : bool * option error =>
            flag_matches_error r /\ (r = (true, None) \/ exists e, r = (false, Some e)))
    [ value (exec h (DeletePassenger id) s);
      value (exec h (BookFlight f p) s);
      value (exec h (CancelBooking f p) s) ].
Proof.
  assert (forall r : bool * option error,
             r = (true, None) \/ (exists e, r = (false, Some e)) ->
             flag_matches_error r /\ (r = (true, None) \/ exists e, r = (false, Some e)))
    as Hflag.
  { intros r Hr. split; [|done]. destruct Hr as [->|[e ->]]; by repeat split. }
  rewrite exec_DeletePassenger, exec_BookFlight, exec_CancelBooking.
  repeat apply Forall_cons_2; [| | |constructor]; apply Hflag.
  - destruct (h (deleteRequest id) s).1; outcome; eauto.
  - destruct (h (setRequest "ADD" f p) s).1; outcome; eauto.
  - destruct (h (setRequest "DELETE" f p) s).1; outcome; eauto.
Qed.

(** C8.  [BookFlight] sends the store exactly one request, the [ADD] of the
    passenger id to the flight's set, before anything else and with no
    read of the flight or of the passenger; it succeeds when that update
    succeeds and returns the update's error when it fails. *)
Theorem BookFlight_unchecked (s : St) (f p : string) :
  let o := exec h (BookFlight f p) s in
  List.filter is_store_call (calls o) = [setRequest "ADD" f p] /\
  head (calls o) = Some (setRequest "ADD" f p) /\
  value o = match (h (setRequest "ADD" f p) s).1 with
            | inl _ => (true, None)
            | inr err => (false, Some err)
            end.
Proof.
  cbv zeta. rewrite exec_BookFlight.
  by destruct (h (setRequest "ADD" f p) s).1.
Qed.


Lemma GetAllFlights_no_partial s : no_partial (value (exec h GetAllFlights s)).
Proof.
  rewrite exec_GetAllFlights. cbv zeta.
  destruct (h (scanRequest "flights") s).1 as [out|e]; [|done].
  pose proof (flights_loop_value h (ScanOutput.Items out) [] (h (scanRequest "flights") s).2)
    as Hl.
  outcome. by destruct (exec h _ _) as [[[l [e|]] s2] tr].
Qed.

Lemma GetAllPassengers_no_partial s : no_partial (value (exec h GetAllPassengers s)).
Proof.
  destruct (exec_GetAllPassengers h s) as [-> _].
  destruct (h (scanRequest "passengers") s).1 as [out|e]; [|done].
  by destruct (collect _ _).
Qed.

Lemma GetAllPassengers_first_failure s out pre bad post e :
  (h (scanRequest "passengers") s).1 = inl out ->
  ScanOutput.Items out = pre ++ bad :: post ->
  Forall (fun item => exists p, UnmarshalMap_Passenger item = inl p) pre ->
  UnmarshalMap_Passenger bad = inr e ->
  value (exec h GetAllPassengers s) = ([], Some e).
Proof.
  intros Hs Hi Hpre Hbad. destruct (exec_GetAllPassengers h s) as [-> _].
  by rewrite Hs, Hi, (collect_first_error _ _ _ _ e Hpre Hbad).
Qed.

(** Once a prefix of the items has failed, the rest is never looked at. *)
Lemma flights_loop_abort l1 l2 acc s e :
  (value (exec h (GetAllFlights_loop l1 acc) s)).2 = Some e ->
  exec h (GetAllFlights_loop (l1 ++ l2) acc) s = exec h (GetAllFlights_loop l1 acc) s.
Proof.
  intros He. rewrite flights_loop_app. cbv zeta.
  destruct (exec h (GetAllFlights_loop l1 acc) s) as [[[l [e'|]] s1] tr]; outcome; done.
Qed.

Lemma GetAllFlights_first_unmarshal_failure s out pre bad post e :
  (h (scanRequest "flights") s).1 = inl out ->
  ScanOutput.Items out = pre ++ bad :: post ->
  (value (exec h (GetAllFlights_loop pre []) (h (scanRequest "flights") s).2)).2 = None ->
  UnmarshalMap_DynamoFlight bad = inr e ->
  value (exec h GetAllFlights s) = ([], Some e).
Proof.
  intros Hs Hi Hpre Hbad. rewrite exec_GetAllFlights. cbv zeta. rewrite Hs, Hi.
  rewrite flights_loop_app. cbv zeta.
  destruct (exec h (GetAllFlights_loop pre []) _) as [[[l [e'|]] s1] tr]; project; [done|].
  rewrite flights_loop_cons, Hbad. done.
Qed.

Lemma GetAllFlights_first_lookup_failure s out pre item post df ids1 id ids2 e :
  (h (scanRequest "flights") s).1 = inl out ->
  ScanOutput.Items out = pre ++ item :: post ->
  let o1 := exec h (GetAllFlights_loop pre []) (h (scanRequest "flights") s).2 in
  (value o1).2 = None ->
  UnmarshalMap_DynamoFlight item = inl df ->
  Passengers df = ids1 ++ id :: ids2 ->
  let o2 := exec h (convertDynamoFlightToFlight_loop ids1 (flight0 df)) (world o1) in
  (value o2).2 = None ->
  (value (exec h (func_GetPassenger id) (world o2))).2 = Some e ->
  value (exec h GetAllFlights s) = ([], Some e).
Proof.
  intros Hs Hi o1 Ho1 Hdf Hids o2 Ho2 He. rewrite exec_GetAllFlights. cbv zeta.
  rewrite Hs, Hi, flights_loop_app. cbv zeta. fold o1.
  destruct o1 as [[[l [e'|]] s1] tr] eqn:Eo1; project; [done|].
  rewrite flights_loop_cons, Hdf. cbv zeta.
  change (convertDynamoFlightToFlight df)
    with (convertDynamoFlightToFlight_loop (Passengers df) (flight0 df)).
  rewrite Hids, convert_loop_app. cbv zeta.
  pose proof (convert_loop_value h ids1 (flight0 df) s1) as Hv.
  subst o2. project.
  destruct (exec h (convertDynamoFlightToFlight_loop ids1 (flight0 df)) s1)
    as [[[[fl|] [e'|]] s2] tr2]; project; try done.
  rewrite convert_loop_cons. cbv zeta.
  destruct (exec h (func_GetPassenger id) s2) as [[[p' [e'|]] s3] tr3]; project; [|done].
  by injection He as ->.
Qed.

(** C5.  A listing that reports an error returns the nil slice with it; the
    first item of the scan that fails to decode, and for flights the
    first passenger lookup that fails (the first call of the package-level
    [GetPassenger] that returns an error, whatever that function is), makes
    the whole listing return that error and the nil slice, whatever items
    follow; and nothing is done for the items that follow. *)
Theorem listings_fail_fast :
  (forall s, no_partial (value (exec h GetAllPassengers s)) /\
             no_partial (value (exec h GetAllFlights s))) /\
  (forall s out pre bad post e,
      (h (scanRequest "passengers") s).1 = inl out ->
      ScanOutput.Items out = pre ++ bad :: post ->
      Forall (fun item => exists p, UnmarshalMap_Passenger item = inl p) pre ->
      UnmarshalMap_Passenger bad = inr e ->
      value (exec h GetAllPassengers s) = ([], Some e)) /\
  (forall s out pre bad post e,
      (h (scanRequest "flights") s).1 = inl out ->
      ScanOutput.Items out = pre ++ bad :: post ->
      (value (exec h (GetAllFlights_loop pre []) (h (scanRequest "flights") s).2)).2 = None ->
      UnmarshalMap_DynamoFlight bad = inr e ->
      value (exec h GetAllFlights s) = ([], Some e)) /\
  (forall s out pre item post df ids1 id ids2 e,
      (h (scanRequest "flights") s).1 = inl out ->
      ScanOutput.Items out = pre ++ item :: post ->
      let o1 := exec h (GetAllFlights_loop pre []) (h (scanRequest "flights") s).2 in
      (value o1).2 = None ->
      UnmarshalMap_DynamoFlight item = inl df ->
      Passengers df = ids1 ++ id :: ids2 ->
      let o2 := exec h (convertDynamoFlightToFlight_loop ids1 (flight0 df)) (world o1) in
      (value o2).2 = None ->
      (value (exec h (func_GetPassenger id) (world o2))).2 = Some e ->
      value (exec h GetAllFlights s) = ([], Some e)) /\
  (forall l1 l2 acc s e,
      (value (exec h (GetAllFlights_loop l1 acc) s)).2 = Some e ->
      exec h (GetAllFlights_loop (l1 ++ l2) acc) s = exec h (GetAllFlights_loop l1 acc) s).
Proof.
  split; [intros s; split; [apply GetAllPassengers_no_partial|apply GetAllFlights_no_partial]|].
  split; [apply GetAllPassengers_first_failure|].
  split; [apply GetAllFlights_first_unmarshal_failure|].
  split; [apply GetAllFlights_first_lookup_failure|].
  apply flights_loop_abort.
Qed.

End package_properties.

(** ** Properties that rest on what the store does *)
Section store_properties.
Import Mem.

Lemma delete_row_absent kn k rows :
  lookup_row kn k rows = None -> delete_row kn k rows = rows.
Proof.
  unfold lookup_row, delete_row. induction rows as [|row rows IH]; simpl; [done|].
  destruct (has_key kn k row); [done|]. intros Hl. simpl. by rewrite IH.
Qed.

(** C7.  [DeletePassenger] sends the store one [DeleteItem] and nothing
    before it, and succeeds exactly when that call does, returning the
    call's error otherwise; on the store, which answers a delete of an
    absent item like any other, it therefore returns [(true, nil)] whether
    or not a row with the id exists, and changes no table when none does. *)
Theorem DeletePassenger_absent_is_success :
  (forall St (h : handler St) (s : St) (id : string),
      let o := exec h (DeletePassenger id) s in
      List.filter is_store_call (calls o) = [deleteRequest id] /\
      head (calls o) = Some (deleteRequest id) /\
      value o = match (h (deleteRequest id) s).1 with
                | inl _ => (true, None)
                | inr err => (false, Some err)
                end) /\
  (forall (w : World) (pt : Table) (id : string),
      Tables w !! "passengers" = Some pt -> KeySchema pt = "id" -> id <> "" ->
      let o := exec handle (DeletePassenger id) w in
      value o = (true, None) /\
      (forall pt', Tables (world o) !! "passengers" = Some pt' ->
                   lookup_row "id" id (Rows pt') = None) /\
      (lookup_row "id" id (Rows pt) = None -> Tables (world o) = Tables w)).
Proof.
  split.
  - intros St h s id. cbv zeta. rewrite exec_DeletePassenger.
    by destruct (h (deleteRequest id) s).1.
  - intros w pt id Ht Hk Hid. cbv zeta.
    destruct (Mem_DeletePassenger w id) as [Htab Hv].
    rewrite (do_DeleteItem_passenger _ pt) in Htab, Hv by done.
    cbn [fst snd] in Htab, Hv. split; [done|].
    rewrite Htab. split.
    + unfold with_rows. rewrite lookup_insert_eq. intros pt' [= <-]. simpl.
      apply lookup_delete_row.
    + intros Hl. rewrite delete_row_absent by done. by apply with_rows_same.
Qed.

Lemma Mem_delete_then_get w pt id :
  Tables w !! "passengers" = Some pt -> KeySchema pt = "id" -> id <> "" ->
  let o := exec handle (DeletePassenger id) w in
  value o = (true, None) /\
  value (exec handle (GetPassenger id) (world o)) = (Some zero_Passenger, None).
Proof.
  intros Ht Hk Hid. cbv zeta.
  destruct (Mem_DeletePassenger w id) as [Htab Hv].
  rewrite (do_DeleteItem_passenger _ pt) in Htab, Hv by done.
  cbn [fst snd] in Htab, Hv. split; [done|].
  erewrite Mem_GetPassenger; [done| | |done|].
  - rewrite Htab. unfold with_rows. apply lookup_insert_eq.
  - done.
  - simpl. rewrite <- Hk. apply stored_passenger_deleted.
Qed.

(** C2.  In a store that holds the passengers table: a passenger that was
    created can be read back; after [DeletePassenger] of its id,
    [GetPassenger] of that id returns the zero-valued record (empty id,
    empty name) and a nil error, not the record that was created; and the
    same holds after the deletion of any non-empty id. *)
Theorem GetPassenger_after_DeletePassenger (w : World) (pt : Table) (name : string) :
  Tables w !! "passengers" = Some pt -> KeySchema pt = "id" ->
  (exists p,
      let o1 := exec handle (CreatePassenger name) w in
      let o2 := exec handle (DeletePassenger (model.ID p)) (world o1) in
      value o1 = (Some p, None) /\
      p <> zero_Passenger /\
      value (exec handle (GetPassenger (model.ID p)) (world o1)) = (Some p, None) /\
      value o2 = (true, None) /\
      value (exec handle (GetPassenger (model.ID p)) (world o2))
      = (Some zero_Passenger, None)) /\
  (forall id, id <> "" ->
      let o := exec handle (DeletePassenger id) w in
      value o = (true, None) /\
      value (exec handle (GetPassenger id) (world o)) = (Some zero_Passenger, None)).
Proof.
  intros Ht Hk. split; [|intros id Hid; by apply (Mem_delete_then_get w pt)].
  destruct (Mem_CreatePassenger w pt name Ht Hk) as (Hv & rows' & Htab & Hst).
  set (p := {| model.ID := uuid.String (Entropy w (Draws w)); model.Name := name |}) in *.
  exists p. cbv zeta.
  set (w1 := world (exec handle (CreatePassenger name) w)) in *.
  assert (Tables w1 !! "passengers" = Some (set_rows pt rows'))
    as Ht1 by (rewrite Htab; apply lookup_insert_eq).
  assert (model.ID p <> "") as Hid by apply String_nonempty.
  split; [done|]. split; [by intros Hz; rewrite Hz in Hid|].
  split; [by erewrite Mem_GetPassenger|].
  by apply (Mem_delete_then_get w1 (set_rows pt rows')).
Qed.

End store_properties.

(** C6.  [CreatePassenger] takes the name only and generates the identifier
    itself: it draws one UUID from [uuid.New], before anything else and only
    once; the passenger it returns carries the given name and the drawn
    UUID's 36-character text as id, never the empty string, and that same
    record is what it put in the passengers table.  The ids of two
    creations, for the same name or not, are equal exactly when [uuid.New]
    answered both with the same UUID: the ids are as unique as the
    generator's answers, and nothing in [CreatePassenger] checks or enforces
    that they differ. *)
Theorem CreatePassenger_generates_id `{Codec} {St : Type} (h : handler St) :
  (forall s name,
      head (calls (exec h (CreatePassenger name) s)) = Some uuid_New /\
      List.filter is_uuid_New (calls (exec h (CreatePassenger name) s)) = [uuid_New]) /\
  (forall s name p e,
      value (exec h (CreatePassenger name) s) = (Some p, e) ->
      e = None /\ model.Name p = name /\
      model.ID p = uuid.String (h uuid_New s).1 /\
      String.length (model.ID p) = 36 /\ model.ID p <> "" /\
      exists av, MarshalMap p = inl av /\
                 calls (exec h (CreatePassenger name) s) = [uuid_New; putRequest av]) /\
  (forall s1 s2 name1 name2 p1 p2 e1 e2,
      value (exec h (CreatePassenger name1) s1) = (Some p1, e1) ->
      value (exec h (CreatePassenger name2) s2) = (Some p2, e2) ->
      model.ID p1 = model.ID p2 <-> (h uuid_New s1).1 = (h uuid_New s2).1).
Proof.
  assert (forall s name p e,
             value (exec h (CreatePassenger name) s) = (Some p, e) ->
             p = {| model.ID := uuid.String (h uuid_New s).1; model.Name := name |} /\
             e = None /\
             exists av, MarshalMap p = inl av /\
                        calls (exec h (CreatePassenger name) s) = [uuid_New; putRequest av])
    as Hshape.
  { intros s name p e. rewrite exec_CreatePassenger. cbv zeta.
    destruct (MarshalMap _) as [av|err] eqn:Hav; [|done].
    destruct (h (putRequest av) _).1; [|done].
    project. intros [= <- <-]. eauto. }
  split; [|split].
  - intros s name. rewrite exec_CreatePassenger. cbv zeta.
    destruct (MarshalMap _) as [av|err]; [|done].
    by destruct (h (putRequest av) _).1.
  - intros s name p e Hv. destruct (Hshape _ _ _ _ Hv) as (-> & -> & Hput).
    repeat split; try done.
    + apply String_length.
    + apply String_nonempty.
  - intros s1 s2 name1 name2 p1 p2 e1 e2 Hv1 Hv2.
    destruct (Hshape _ _ _ _ Hv1) as (-> & _). destruct (Hshape _ _ _ _ Hv2) as (-> & _).
    simpl. split; [apply String_inj|by intros ->].
Qed.

(** ** The properties at sample worlds

    In the sample runs the package-level [GetPassenger] is the point
    lookup, [spec_GetPassenger]. *)
Section samples.
Import Mem.

Ltac readable_rows :=
  repeat first
    [ apply Forall_nil_2
    | apply Forall_cons_2
    | eexists; split; [vm_compute; reflexivity|]
    | split; [discriminate | eexists; vm_compute; reflexivity] ].

Lemma GetAllFlights_expands_passenger_set_witness :
  let o := exec handle GetAllFlights Sample.full in
  value o
  = ([ Some (with_passengers (flight0 Demo.BA100_record) [Some Demo.Bob; Some Demo.Alice]);
       Some (with_passengers (flight0 Demo.LH400_record)
               [Some Demo.Alice; Some Sample.Carol; Some Demo.Bob]);
       Some {| model.Number := "QF1"; model.Capacity := 2; model.Captain := "Edsger";
               model.Plane := "A320"; model.Passengers := [] |} ], None) /\
  calls o = [ scanRequest "flights"; getRequest "p2"; getRequest "p1";
              getRequest "p1"; getRequest "p3"; getRequest "p2" ] /\
  world o = Sample.full /\
  exists fl, (value o).1 !! 0 = Some (Some fl) /\
             model.Passengers fl ≡ₚ [Some Demo.Alice; Some Demo.Bob].
Proof.
  cbv zeta.
  destruct (GetAllFlights_expands_passenger_set Sample.full
              (Demo.flights [Demo.BA100; Demo.LH400; Demo.QF1])
              (Demo.passengers [Demo.alice; Demo.bob; Sample.carol]))
    as (fls & Hv & Hw & Hc & _ & Hrow).
  - reflexivity.
  - reflexivity.
  - reflexivity.
  - change (take _ _) with [Demo.BA100; Demo.LH400; Demo.QF1]. readable_rows.
  - destruct (Hrow 0 Demo.BA100 Demo.BA100_record "p1" "p2" Demo.Alice Demo.Bob)
      as (fl & Hfl & _ & _ & _ & _ & Hp).
    + reflexivity.
    + vm_compute. reflexivity.
    + apply perm_swap.
    + vm_compute. reflexivity.
    + vm_compute. reflexivity.
    + split; [vm_compute; reflexivity|]. split; [vm_compute; reflexivity|].
      split; [exact Hw|].
      exists fl. split; [|exact Hp].
      rewrite Hv. cbn [fst]. by rewrite list_lookup_fmap, Hfl.
Defined.

Lemma GetPassenger_after_DeletePassenger_witness :
  let o1 := exec handle (CreatePassenger "Carol") Demo.small in
  let o2 := exec handle (DeletePassenger Demo.id0) (world o1) in
  value o1 = (Some {| model.ID := Demo.id0; model.Name := "Carol" |}, None) /\
  value (exec handle (GetPassenger Demo.id0) (world o1))
  = (Some {| model.ID := Demo.id0; model.Name := "Carol" |}, None) /\
  value o2 = (true, None) /\
  value (exec handle (GetPassenger Demo.id0) (world o2)) = (Some zero_Passenger, None).
Proof.
  destruct (GetPassenger_after_DeletePassenger Demo.small
              (Demo.passengers [Demo.alice; Demo.bob]) "Carol")
    as [(p & Hc & _ & Hg & Hd & Hz) _].
  - reflexivity.
  - reflexivity.
  - assert (p = {| model.ID := Demo.id0; model.Name := "Carol" |}) as ->.
    { vm_compute in Hc. by injection Hc as <-. }
    repeat split; assumption.
Defined.

Lemma BookFlight_idempotent_witness :
  ("p1" ∈ passenger_set (Tables Demo.small) "BA100") /\
  Tables (world (exec handle (BookFlight "BA100" "p1") Demo.small)) = Tables Demo.small.
Proof.
  assert ("p1" ∈ passenger_set (Tables Demo.small) "BA100") as Hin by compute_done.
  split; [exact Hin|].
  pose proof (BookFlight_idempotent Demo.small "BA100" "p1") as (_ & _ & _ & Hnoop).
  exact (Hnoop Hin).
Defined.

Lemma CancelBooking_after_BookFlight_witness :
  let w1 := world (exec handle (BookFlight "QF1" "p1") Demo.small) in
  let o2 := exec handle (CancelBooking "QF1" "p1") w1 in
  let o3 := exec handle (CancelBooking "QF1" "p1") (world o2) in
  value (exec handle (BookFlight "QF1" "p1") Demo.small) = (true, None) /\
  ("p1" ∈ passenger_set (Tables w1) "QF1") /\
  value o2 = (true, None) /\
  ("p1" ∉ passenger_set (Tables (world o2)) "QF1") /\
  value o3 = (true, None) /\
  Tables (world o3) = Tables (world o2).
Proof.
  assert (value (exec handle (BookFlight "QF1" "p1") Demo.small) = (true, None)) as Hbook
    by (vm_compute; reflexivity).
  pose proof (CancelBooking_after_BookFlight Demo.small "QF1" "p1" Hbook)
    as (Hin & Hv2 & Hout & _ & Hv3 & Ht3).
  repeat split; assumption.
Defined.

Lemma listings_fail_fast_witness :
  value (exec handle GetAllPassengers Demo.garbled) = ([], Some UnmarshalTypeError) /\
  value (exec handle GetAllFlights Demo.garbled) = ([], Some UnmarshalTypeError) /\
  value (exec handle GetAllFlights Demo.faulty) = ([], Some UnmarshalTypeError).
Proof.
  pose proof (listings_fail_fast handle) as (_ & HA & HB & HC & _).
  split; [|split].
  - apply (HA Demo.garbled
             {| ScanOutput.Items := [Demo.alice; Demo.broken; Demo.bob];
                ScanOutput.LastEvaluatedKey := None |}
             [Demo.alice] Demo.broken [Demo.bob]).
    + vm_compute. reflexivity.
    + reflexivity.
    + repeat constructor. eexists. vm_compute. reflexivity.
    + vm_compute. reflexivity.
  - apply (HB Demo.garbled
             {| ScanOutput.Items := [Demo.QF1; Demo.XX1; Demo.BA100];
                ScanOutput.LastEvaluatedKey := None |}
             [Demo.QF1] Demo.XX1 [Demo.BA100]).
    + vm_compute. reflexivity.
    + reflexivity.
    + vm_compute. reflexivity.
    + vm_compute. reflexivity.
  - apply (HC Demo.faulty
             {| ScanOutput.Items := [Demo.BA100; Demo.LH400; Demo.QF1];
                ScanOutput.LastEvaluatedKey := None |}
             [Demo.BA100] Demo.LH400 [Demo.QF1] Demo.LH400_record ["p1"] "p3" ["p2"]).
    + vm_compute. reflexivity.
    + reflexivity.
    + vm_compute. reflexivity.
    + vm_compute. reflexivity.
    + reflexivity.
    + vm_compute. reflexivity.
    + vm_compute. reflexivity.
Defined.

Lemma CreatePassenger_generates_id_witness :
  let o1 := exec handle (CreatePassenger "Alice") Demo.small in
  let o2 := exec handle (CreatePassenger "Alice") (world o1) in
  value o1 = (Some {| model.ID := Demo.id0; model.Name := "Alice" |}, None) /\
  value o2 = (Some {| model.ID := Demo.id1; model.Name := "Alice" |}, None) /\
  String.length Demo.id0 = 36 /\
  (Demo.id0 = Demo.id1 <-> Demo.uuid_of 0 = Demo.uuid_of 1) /\
  Demo.id0 <> Demo.id1.
Proof.
  cbv zeta.
  set (o1 := exec handle (CreatePassenger "Alice") Demo.small).
  assert (value o1 = (Some {| model.ID := Demo.id0; model.Name := "Alice" |}, None)) as H1
    by (vm_compute; reflexivity).
  assert (value (exec handle (CreatePassenger "Alice") (world o1))
          = (Some {| model.ID := Demo.id1; model.Name := "Alice" |}, None)) as H2
    by (vm_compute; reflexivity).
  pose proof (CreatePassenger_generates_id handle) as (_ & Hone & Htwo).
  split; [exact H1|]. split; [exact H2|]. split; [|split].
  - exact (proj1 (proj2 (proj2 (proj2 (Hone _ _ _ _ H1))))).
  - exact (Htwo _ _ _ _ _ _ _ _ H1 H2).
  - vm_compute. discriminate.
Defined.

(** A generator that answers twice with the same UUID: both creations
    succeed, and the two passengers, of the same name, have the same id. *)
Lemma CreatePassenger_ids_can_repeat :
  let o1 := exec handle (CreatePassenger "Alice") Sample.stuck in
  let o2 := exec handle (CreatePassenger "Alice") (world o1) in
  value o1 = (Some {| model.ID := Demo.id0; model.Name := "Alice" |}, None) /\
  value o2 = (Some {| model.ID := Demo.id0; model.Name := "Alice" |}, None) /\
  List.filter is_uuid_New (calls o1 ++ calls o2) = [uuid_New; uuid_New] /\
  ~ (forall p1 p2, (value o1).1 = Some p1 -> (value o2).1 = Some p2 ->
                   model.ID p1 <> model.ID p2).
Proof.
  cbv zeta. split; [vm_compute; reflexivity|]. split; [vm_compute; reflexivity|].
  split; [vm_compute; reflexivity|].
  intros Hne. by eapply (Hne _ _ eq_refl eq_refl).
Qed.


Lemma DeletePassenger_absent_is_success_witness :
  lookup_row "id" "nobody" [Demo.alice; Demo.bob] = None /\
  value (exec handle (DeletePassenger "nobody") Demo.small) = (true, None) /\
  Tables (world (exec handle (DeletePassenger "nobody") Demo.small)) = Tables Demo.small /\
  lookup_row "id" "p1" [Demo.alice; Demo.bob] = Some Demo.alice /\
  value (exec handle (DeletePassenger "p1") Demo.small) = (true, None).
Proof.
  pose proof DeletePassenger_absent_is_success as [_ Hstore].
  assert (lookup_row "id" "nobody" [Demo.alice; Demo.bob] = None) as Habsent
    by (vm_compute; reflexivity).
  destruct (Hstore Demo.small (Demo.passengers [Demo.alice; Demo.bob]) "nobody")
    as (Hv & _ & Hsame); [reflexivity | reflexivity | discriminate |].
  destruct (Hstore Demo.small (Demo.passengers [Demo.alice; Demo.bob]) "p1")
    as (Hv' & _ & _); [reflexivity | reflexivity | discriminate |].
  split; [exact Habsent|]. split; [exact Hv|]. split; [exact (Hsame Habsent)|].
  split; [vm_compute; reflexivity | exact Hv'].
Defined.

(** Booking a passenger nobody created on a flight that is already at
    its capacity of two succeeds, and so does booking on a flight nobody
    seeded, where the store creates the row; a store that refuses such an
    update makes the booking fail with the store's error. *)
Example BookFlight_unchecked_sample :
  let o := exec handle (BookFlight "BA100" "ghost") Demo.small in
  let o' := exec handle (BookFlight "ZZ999" "ghost") Demo.small in
  value (exec handle (BookFlight "ZZ999" "ghost") Demo.strict)
  = (false, Some ConditionalCheckFailedException) /\
  stored_passenger (Demo.passengers [Demo.alice; Demo.bob]) "ghost" = inl zero_Passenger /\
  Capacity Demo.BA100_record = 2%Z /\
  value o = (true, None) /\
  passenger_set (Tables (world o)) "BA100" = ["p2"; "p1"; "ghost"] /\
  passenger_set (Tables Demo.small) "ZZ999" = [] /\
  value o' = (true, None) /\
  passenger_set (Tables (world o')) "ZZ999" = ["ghost"].
Proof. vm_compute. repeat split; reflexivity. Qed.

(** With three flights stored and room for two in a response, the
    listing returns two flights although the response names the key to
    resume from. *)
Example scan_truncates_sample :
  (handle (scanRequest "flights") Demo.paged).1
  = inl {| ScanOutput.Items := [Demo.BA100; Demo.QF1];
           ScanOutput.LastEvaluatedKey := Some {[ "number" := AttributeValue.S "QF1" ]} |} /\
  length (value (exec handle GetAllFlights Demo.paged)).1 = 2 /\
  (value (exec handle GetAllFlights Demo.paged)).2 = None /\
  List.filter is_Scan (calls (exec handle GetAllFlights Demo.paged))
  = [scanRequest "flights"].
Proof. vm_compute. repeat split; reflexivity. Qed.

(** In a store without tables every request fails, and each operation
    hands the store's error on, after a line on standard output. *)
Example errors_propagate_sample :
  value (exec handle (DeletePassenger "p1") Demo.bare)
  = (false, Some ResourceNotFoundException) /\
  value (exec handle (BookFlight "BA100" "p1") Demo.bare)
  = (false, Some ResourceNotFoundException) /\
  value (exec handle GetAllFlights Demo.bare) = ([], Some ResourceNotFoundException) /\
  value (exec handle (CreatePassenger "Alice") Demo.bare)
  = (None, Some ResourceNotFoundException) /\
  Stdout (world (exec handle (BookFlight "BA100" "p1") Demo.bare))
  = [Error ResourceNotFoundException +:+ nl].
Proof. vm_compute. repeat split; reflexivity. Qed.

End samples.

(** ** Further properties of the package against any client *)
Section more_package_properties.
Context `{Codec} `{PackageFunctions} {St : Type} (h : handler St).

(** X1.  [GetPassenger] and [CreatePassenger] return either a record and a
    nil error or no record and an error, never both and never neither; and
    [GetPassenger] asks the store for one thing only, the item of the
    passengers table under the given id. *)
Theorem pointer_results_one_of_two (s : St) (id name : string) :
  one_of_two (value (exec h (GetPassenger id) s)) /\
  one_of_two (value (exec h (CreatePassenger name) s)) /\
  List.filter is_store_call (calls (exec h (GetPassenger id) s)) = [getRequest id].
Proof.
  rewrite exec_GetPassenger, exec_CreatePassenger. cbv zeta. repeat split.
  - destruct (h (getRequest id) s).1 as [out|e]; [|right; eauto].
    destruct (UnmarshalMap_Passenger _); [left|right]; eauto.
  - destruct (MarshalMap _) as [av|e]; [|right; eauto].
    destruct (h (putRequest av) _).1; [left|right]; eauto.
  - destruct (h (getRequest id) s).1 as [out|e]; [|done].
    by destruct (UnmarshalMap_Passenger _).
Qed.

(** X2.  [CreatePassenger] draws exactly one UUID, before anything else.
    When the record cannot be marshalled it sends the store nothing and
    returns the marshalling error; otherwise it sends one request, the put of
    the marshalled record into the passengers table, and returns the record
    when the put succeeds and the put's error when it fails. *)
Theorem CreatePassenger_store_interaction (s : St) (name : string) :
  let o := exec h (CreatePassenger name) s in
  let item := {| model.ID := uuid.String (h uuid_New s).1; model.Name := name |} in
  head (calls o) = Some uuid_New /\
  List.filter is_uuid_New (calls o) = [uuid_New] /\
  match MarshalMap item with
  | inr err => List.filter is_store_call (calls o) = [] /\ value o = (None, Some err)
  | inl av =>
      List.filter is_store_call (calls o) = [putRequest av] /\
      value o = match (h (putRequest av) (h uuid_New s).2).1 with
                | inl _ => (Some item, None)
                | inr err => (None, Some err)
                end
  end.
Proof.
  cbv zeta. rewrite exec_CreatePassenger. cbv zeta.
  destruct (MarshalMap _) as [av|e]; [|done].
  by destruct (h (putRequest av) _).1.
Qed.

(** X3.  [CancelBooking] sends the store exactly one request, first, and
    succeeds or fails with it; the request is the one [BookFlight] sends for
    the same flight and passenger (same table, same key, same set operand)
    except that its update expression says [DELETE] where the other says
    [ADD]. *)
Theorem CancelBooking_mirrors_BookFlight (s : St) (f p : string) :
  let o := exec h (CancelBooking f p) s in
  List.filter is_store_call (calls o) = [setRequest "DELETE" f p] /\
  value o = match (h (setRequest "DELETE" f p) s).1 with
            | inl _ => (true, None)
            | inr err => (false, Some err)
            end /\
  exists i j,
    head (calls (exec h (BookFlight f p) s)) = Some (UpdateItem i) /\
    head (calls o) = Some (UpdateItem j) /\
    UpdateItemInput.TableName i = "flights" /\
    UpdateItemInput.TableName j = "flights" /\
    UpdateItemInput.Key i = {[ "number" := AttributeValue.S f ]} /\
    UpdateItemInput.Key j = UpdateItemInput.Key i /\
    UpdateItemInput.ExpressionAttributeNames j = UpdateItemInput.ExpressionAttributeNames i /\
    UpdateItemInput.ExpressionAttributeValues i = {[ ":0" := AttributeValue.SS [p] ]} /\
    UpdateItemInput.ExpressionAttributeValues j = UpdateItemInput.ExpressionAttributeValues i /\
    UpdateItemInput.UpdateExpression i = "ADD #0 :0" /\
    UpdateItemInput.UpdateExpression j = "DELETE #0 :0".
Proof.
  cbv zeta. rewrite exec_CancelBooking, exec_BookFlight.
  split; [by destruct (h (setRequest "DELETE" f p) s).1|].
  split; [by destruct (h (setRequest "DELETE" f p) s).1|].
  exists (setInput "ADD" f p), (setInput "DELETE" f p).
  destruct (h (setRequest "DELETE" f p) s).1, (h (setRequest "ADD" f p) s).1;
    repeat split.
Qed.

(** X5.  When [GetAllPassengers] succeeds, its result follows the scan's
    response item by item: the i-th record is the decoding of the i-th
    item, and no entry is nil. *)
Theorem GetAllPassengers_in_response_order (s : St) (out : ScanOutput.t)
    (passengers : list (option model.Passenger)) :
  (h (scanRequest "passengers") s).1 = inl out ->
  value (exec h GetAllPassengers s) = (passengers, None) ->
  Forall2 (fun item p => exists x, UnmarshalMap_Passenger item = inl x /\ p = Some x)
    (ScanOutput.Items out) passengers.
Proof.
  intros Hs. destruct (exec_GetAllPassengers h s) as [-> _]. rewrite Hs.
  generalize (ScanOutput.Items out). intros items. revert passengers.
  induction items as [|item items IH]; intros passengers; simpl.
  - intros [= <-]. constructor.
  - destruct (UnmarshalMap_Passenger item) as [x|] eqn:Hx; [|done].
    destruct (collect _ items) as [ps|]; [|done]. intros [= <-].
    constructor; eauto.
Qed.

(** X10.  A scan that answers with no items makes either listing return
    the nil slice and a nil error after that one call; and a flight without
    passenger ids is converted without any call, into a flight with the nil
    passenger list.  The package-level [GetPassenger] is not called, whatever
    it is. *)
Theorem nothing_to_list (s : St) :
  (forall out,
      (h (scanRequest "passengers") s).1 = inl out -> ScanOutput.Items out = [] ->
      value (exec h GetAllPassengers s) = ([], None) /\
      calls (exec h GetAllPassengers s) = [scanRequest "passengers"]) /\
  (forall out,
      (h (scanRequest "flights") s).1 = inl out -> ScanOutput.Items out = [] ->
      value (exec h GetAllFlights s) = ([], None) /\
      calls (exec h GetAllFlights s) = [scanRequest "flights"]) /\
  (forall df,
      Passengers df = [] ->
      exec h (convertDynamoFlightToFlight df) s = ((Some (flight0 df), None), s, [])).
Proof.
  split; [|split].
  - intros out Hs Hi. unfold GetAllPassengers. rewrite exec_bind, exec_scanTable. project.
    by rewrite Hs, Hi.
  - intros out Hs Hi. rewrite exec_GetAllFlights. cbv zeta. by rewrite Hs, Hi.
  - intros df Hp. unfold convertDynamoFlightToFlight. by rewrite Hp.
Qed.

(** *** What the flight listing calls and prints *)

Lemma GetPassenger_cases s id :
  let o := exec h (GetPassenger id) s in
  (exists item, value o = (Some item, None) /\ calls o = [getRequest id]) \/
  (exists e pre, value o = (None, Some e) /\
                 calls o = [getRequest id; error_line pre e] /\
                 pre ∈ ["Query API call failed: "; "Got error unmarshalling: "]).
Proof.
  cbv zeta. rewrite exec_GetPassenger. cbv zeta.
  destruct (h (getRequest id) s).1 as [out|e].
  - destruct (UnmarshalMap_Passenger _) as [item|e]; [left; eauto|].
    right. exists e, "Got error unmarshalling: ". repeat split. compute_done.
  - right. exists e, "Query API call failed: ". repeat split. compute_done.
Qed.

Lemma lookups_are_quiet_reads (ids : list string) :
  forallb is_read_only (getRequest <$> ids) = true /\
  List.filter is_Print (getRequest <$> ids) = [] /\
  List.filter is_store_call (getRequest <$> ids) = getRequest <$> ids.
Proof.
  induction ids as [|id ids (IH1 & IH2 & IH3)]; [done|]. repeat split.
  - exact IH1.
  - exact IH2.
  - simpl. f_equal. exact IH3.
Qed.

Lemma passengers_loop_calls items acc s :
  calls (exec h (GetAllPassengers_loop items acc) s) =
  match collect UnmarshalMap_Passenger items with
  | inl _ => []
  | inr e => [error_line "Got error unmarshalling: " e]
  end.
Proof.
  revert acc s. induction items as [|item rest IH]; intros acc s; simpl; [done|].
  destruct (UnmarshalMap_Passenger item) as [p|e]; simpl.
  - rewrite IH. by destruct (collect _ rest).
  - by destruct (h _ s) as [[] s1].
Qed.

Lemma GetAllPassengers_calls s :
  calls (exec h GetAllPassengers s) =
  scanRequest "passengers" ::
  match (h (scanRequest "passengers") s).1 with
  | inr e => [error_line "Query API call failed: " e]
  | inl out =>
      match collect UnmarshalMap_Passenger (ScanOutput.Items out) with
      | inl _ => []
      | inr e => [error_line "Got error unmarshalling: " e]
      end
  end.
Proof.
  unfold GetAllPassengers. rewrite exec_bind, exec_scanTable. project.
  destruct (h (scanRequest "passengers") s) as [[out|e] s1]; project.
  - simpl. by rewrite passengers_loop_calls.
  - simpl. by destruct (h _ s1) as [[] s2].
Qed.

(** What the method [GetPassenger] does, whatever the client. *)
Lemma GetPassenger_read_only id s :
  forallb is_read_only (calls (exec h (GetPassenger id) s)) = true.
Proof. by destruct (GetPassenger_cases s id) as [(item & _ & ->)|(e & pre & _ & -> & _)]. Qed.

Lemma GetPassenger_quiet id s :
  (value (exec h (GetPassenger id) s)).2 = None ->
  List.filter is_Print (calls (exec h (GetPassenger id) s)) = [].
Proof.
  by destruct (GetPassenger_cases s id) as [(item & -> & ->)|(e & pre & -> & -> & _)].
Qed.

Lemma GetPassenger_not_nil_nil id s :
  value (exec h (GetPassenger id) s) <> (None, None).
Proof.
  by destruct (GetPassenger_cases s id) as [(item & -> & _)|(e & pre & -> & _)].
Qed.

(** *** The flight listing, whatever the package-level [GetPassenger] is *)

Lemma convert_loop_read_only ids fl s :
  (forall id s', forallb is_read_only (calls (exec h (func_GetPassenger id) s')) = true) ->
  forallb is_read_only (calls (exec h (convertDynamoFlightToFlight_loop ids fl) s)) = true.
Proof.
  intros Hro. revert fl s. induction ids as [|id rest IH]; intros fl s; [done|].
  rewrite convert_loop_cons. cbv zeta.
  pose proof (Hro id s) as Hg.
  destruct (exec h (func_GetPassenger id) s) as [[[p [e|]] s1] tr]; outcome.
  - rewrite forallb_app, Hg. done.
  - rewrite forallb_app, Hg, IH. done.
Qed.

Lemma flights_loop_read_only items acc s :
  (forall id s', forallb is_read_only (calls (exec h (func_GetPassenger id) s')) = true) ->
  forallb is_read_only (calls (exec h (GetAllFlights_loop items acc) s)) = true.
Proof.
  intros Hro. revert acc s. induction items as [|item rest IH]; intros acc s; [done|].
  rewrite flights_loop_cons.
  destruct (UnmarshalMap_DynamoFlight item) as [df|e]; [|done]. cbv zeta.
  pose proof (convert_loop_read_only (Passengers df) (flight0 df) s Hro) as Hc.
  change (convertDynamoFlightToFlight_loop (Passengers df) (flight0 df))
    with (convertDynamoFlightToFlight df) in Hc.
  destruct (exec h (convertDynamoFlightToFlight df) s) as [[[fl [e|]] s1] tr]; outcome.
  - done.
  - rewrite forallb_app, Hc, IH. done.
Qed.

(** X4.  The read operations never write and never draw a UUID: every call
    [GetPassenger] and [GetAllPassengers] make is a scan, a point lookup or
    a line of output, whatever the outcome, and so is every call of
    [GetAllFlights] as long as the package-level [GetPassenger] it calls
    makes no other. *)
Theorem reads_never_write (s : St) (id : string) :
  forallb is_read_only (calls (exec h (GetPassenger id) s)) = true /\
  forallb is_read_only (calls (exec h GetAllPassengers s)) = true /\
  ((forall id' s',
       forallb is_read_only (calls (exec h (func_GetPassenger id') s')) = true) ->
   forallb is_read_only (calls (exec h GetAllFlights s)) = true).
Proof.
  split; [|split].
  - apply GetPassenger_read_only.
  - rewrite GetAllPassengers_calls.
    destruct (h (scanRequest "passengers") s).1 as [out|e]; [|done].
    by destruct (collect _ _).
  - intros Hro. rewrite exec_GetAllFlights. cbv zeta.
    destruct (h (scanRequest "flights") s).1 as [out|e]; [|done]. project.
    cbn [forallb is_read_only scanRequest]. by apply flights_loop_read_only.
Qed.

Lemma convert_loop_some ids fl s fl' :
  (forall id s', value (exec h (func_GetPassenger id) s') <> (None, None)) ->
  Forall is_Some (model.Passengers fl) ->
  value (exec h (convertDynamoFlightToFlight_loop ids fl) s) = (Some fl', None) ->
  Forall is_Some (model.Passengers fl').
Proof.
  intros Hnn. revert fl s. induction ids as [|id rest IH]; intros fl s Hfl.
  - outcome. by intros [= <-].
  - rewrite convert_loop_cons. cbv zeta.
    pose proof (Hnn id s) as Hg.
    destruct (exec h (func_GetPassenger id) s) as [[[[p|] [e|]] s1] tr]; outcome; try done.
    specialize (IH (with_passenger fl (Some p)) s1).
    destruct (exec h _ s1) as [[v s2] tr2]; outcome.
    apply IH. simpl. apply Forall_app. split; [done|]. by constructor.
Qed.

Lemma flights_loop_shows items acc s l :
  (forall id s', value (exec h (func_GetPassenger id) s') <> (None, None)) ->
  value (exec h (GetAllFlights_loop items acc) s) = (l, None) ->
  exists fos,
    l = acc ++ fos /\
    Forall2 (fun item fo => exists df fl,
                 UnmarshalMap_DynamoFlight item = inl df /\ fo = Some fl /\ shows df fl)
      items fos.
Proof.
  intros Hnn. revert acc s l. induction items as [|item rest IH]; intros acc s l.
  - outcome. intros [= <-]. exists []. by rewrite app_nil_r.
  - rewrite flights_loop_cons.
    destruct (UnmarshalMap_DynamoFlight item) as [df|e] eqn:Hdf; [|done]. cbv zeta.
    pose proof (convert_loop_value h (Passengers df) (flight0 df) s) as Hc.
    pose proof (convert_loop_carries h (Passengers df) (flight0 df) s) as Hf.
    pose proof (convert_loop_some (Passengers df) (flight0 df) s) as Hs.
    change (convertDynamoFlightToFlight_loop (Passengers df) (flight0 df))
      with (convertDynamoFlightToFlight df) in Hc, Hf, Hs.
    destruct (exec h (convertDynamoFlightToFlight df) s) as [[[[fl|] [e|]] s1] tr];
      outcome; try done.
    intros Hv. destruct (IH _ _ _ Hv) as (fos & -> & Hfos).
    exists (Some fl :: fos). rewrite <- app_assoc. split; [done|].
    constructor; [|done]. exists df, fl. split; [done|]. split; [done|].
    destruct (Hf fl eq_refl) as (? & ? & ? & ? & ?).
    repeat split; try done. apply (Hs fl Hnn); [constructor|done].
Qed.

(** X7.  When [GetAllFlights] succeeds, its result follows the scan's
    response item by item: no entry is nil, and the i-th flight carries the
    number, capacity, captain and plane the i-th item decodes to and as many
    passenger entries as the item has passenger ids; none of these entries
    is nil as long as the package-level [GetPassenger] never returns a nil
    passenger together with a nil error. *)
Theorem GetAllFlights_in_response_order (s : St) (out : ScanOutput.t)
    (flights : list (option model.Flight)) :
  (h (scanRequest "flights") s).1 = inl out ->
  value (exec h GetAllFlights s) = (flights, None) ->
  Forall2 lists (ScanOutput.Items out) flights /\
  ((forall id s', value (exec h (func_GetPassenger id) s') <> (None, None)) ->
   Forall2 (fun item fo => exists df fl,
                UnmarshalMap_DynamoFlight item = inl df /\ fo = Some fl /\ shows df fl)
     (ScanOutput.Items out) flights).
Proof.
  rewrite exec_GetAllFlights. cbv zeta. intros ->. project. intros Hv. split.
  - by destruct (flights_loop_rows h _ _ _ _ Hv) as (fos & -> & Hfos).
  - intros Hnn. by destruct (flights_loop_shows _ _ _ _ Hnn Hv) as (fos & -> & Hfos).
Qed.

Lemma convert_loop_failure ids fl s e :
  let o := exec h (convertDynamoFlightToFlight_loop ids fl) s in
  (value o).2 = Some e ->
  last (calls o) = Some (error_line "Query API call failed: " e).
Proof.
  revert fl s. induction ids as [|id rest IH]; intros fl s; cbv zeta; [done|].
  rewrite convert_loop_cons. cbv zeta.
  destruct (exec h (func_GetPassenger id) s) as [[[p [e'|]] s1] tr]; project.
  - intros [= <-]. by rewrite last_snoc.
  - specialize (IH (with_passenger fl p) s1). cbv zeta in IH.
    destruct (exec h _ s1) as [[v s2] tr2]; project.
    intros He. by rewrite last_app, (IH He).
Qed.

Lemma flights_loop_failure items acc s e :
  let o := exec h (GetAllFlights_loop items acc) s in
  (value o).2 = Some e ->
  exists pre, pre ∈ prefixes /\ last (calls o) = Some (error_line pre e).
Proof.
  revert acc s. induction items as [|item rest IH]; intros acc s; cbv zeta; [done|].
  rewrite flights_loop_cons.
  destruct (UnmarshalMap_DynamoFlight item) as [df|e'].
  2: { intros [= <-]. exists "Got error unmarshalling: ". split; [compute_done|done]. }
  cbv zeta.
  pose proof (convert_loop_failure (Passengers df) (flight0 df) s) as Hc.
  change (convertDynamoFlightToFlight_loop (Passengers df) (flight0 df))
    with (convertDynamoFlightToFlight df) in Hc. cbv zeta in Hc.
  destruct (exec h (convertDynamoFlightToFlight df) s) as [[[fl [e'|]] s1] tr]; project.
  - intros [= <-]. exists "Query API call failed: ". split; [compute_done|by apply Hc].
  - specialize (IH (acc ++ [fl]) s1). cbv zeta in IH.
    destruct (exec h _ s1) as [[v s2] tr2]; project.
    intros He. destruct (IH He) as (pre & Hpre & Hlast). exists pre. split; [done|].
    by rewrite last_app, Hlast.
Qed.

Lemma convert_loop_logged ids fl s :
  (forall id s', (value (exec h (func_GetPassenger id) s')).2 = None ->
                 List.filter is_Print (calls (exec h (func_GetPassenger id) s')) = []) ->
  let o := exec h (convertDynamoFlightToFlight_loop ids fl) s in
  logged (value o).2 (calls o).
Proof.
  intros Hq. revert fl s. induction ids as [|id rest IH]; intros fl s; cbv zeta; [done|].
  rewrite convert_loop_cons. cbv zeta.
  pose proof (Hq id s) as Hg.
  destruct (exec h (func_GetPassenger id) s) as [[[p [e|]] s1] tr]; project.
  - exists "Query API call failed: ". split; [compute_done|]. by rewrite last_snoc.
  - specialize (IH (with_passenger fl p) s1). cbv zeta in IH.
    destruct (exec h _ s1) as [[[fl' [e|]] s2] tr2]; project.
    + destruct IH as (pre & Hpre & Hlast). exists pre. split; [done|].
      by rewrite last_app, Hlast.
    + simpl in IH |- *. by rewrite List.filter_app, (Hg eq_refl), IH.
Qed.

Lemma flights_loop_logged items acc s :
  (forall id s', (value (exec h (func_GetPassenger id) s')).2 = None ->
                 List.filter is_Print (calls (exec h (func_GetPassenger id) s')) = []) ->
  let o := exec h (GetAllFlights_loop items acc) s in
  logged (value o).2 (calls o).
Proof.
  intros Hq. revert acc s. induction items as [|item rest IH]; intros acc s; cbv zeta; [done|].
  rewrite flights_loop_cons.
  destruct (UnmarshalMap_DynamoFlight item) as [df|e].
  2: { exists "Got error unmarshalling: ". split; [compute_done|done]. }
  cbv zeta.
  pose proof (convert_loop_logged (Passengers df) (flight0 df) s Hq) as Hc.
  change (convertDynamoFlightToFlight_loop (Passengers df) (flight0 df))
    with (convertDynamoFlightToFlight df) in Hc. cbv zeta in Hc.
  destruct (exec h (convertDynamoFlightToFlight df) s) as [[[fl [e|]] s1] tr]; project.
  - exact Hc.
  - specialize (IH (acc ++ [fl]) s1). cbv zeta in IH.
    destruct (exec h _ s1) as [[[fls [e|]] s2] tr2]; project.
    + destruct IH as (pre & Hpre & Hlast). exists pre. split; [done|].
      by rewrite last_app, Hlast.
    + simpl in Hc, IH |- *. by rewrite List.filter_app, Hc, IH.
Qed.

(** X8.  Every operation of the package prints nothing when it returns a
    nil error, and when it returns an error the last thing it did was to
    print a line that ends with that error's text; for [GetAllFlights] the
    first half holds as long as the package-level [GetPassenger] it calls
    prints nothing when it returns a nil error, the second whatever that
    function does. *)
Theorem errors_are_logged (s : St) (id name f p : string) :
  let created := exec h (CreatePassenger name) s in
  let deleted := exec h (DeletePassenger id) s in
  let booked := exec h (BookFlight f p) s in
  let cancelled := exec h (CancelBooking f p) s in
  let got := exec h (GetPassenger id) s in
  let passengers := exec h GetAllPassengers s in
  let flights := exec h GetAllFlights s in
  logged (value created).2 (calls created) /\
  logged (value deleted).2 (calls deleted) /\
  logged (value booked).2 (calls booked) /\
  logged (value cancelled).2 (calls cancelled) /\
  logged (value got).2 (calls got) /\
  logged (value passengers).2 (calls passengers) /\
  (forall e, (value flights).2 = Some e -> logged (Some e) (calls flights)) /\
  ((forall id' s', (value (exec h (func_GetPassenger id') s')).2 = None ->
                   List.filter is_Print (calls (exec h (func_GetPassenger id') s')) = []) ->
   logged (value flights).2 (calls flights)).
Proof.
  cbv zeta. repeat split.
  - rewrite exec_CreatePassenger. cbv zeta.
    destruct (MarshalMap _) as [av|e].
    + destruct (h (putRequest av) _).1 as [|e]; [done|].
      exists "Got error calling PutItem: ". split; [compute_done|done].
    + exists "Got error marshalling new passenger item: ". split; [compute_done|done].
  - rewrite exec_DeletePassenger.
    destruct (h (deleteRequest id) s).1 as [|e]; [done|].
    exists "Got error calling DeleteItem: ". split; [compute_done|done].
  - rewrite exec_BookFlight.
    destruct (h (setRequest "ADD" f p) s).1 as [|e]; [done|].
    exists "". split; [compute_done|done].
  - rewrite exec_CancelBooking.
    destruct (h (setRequest "DELETE" f p) s).1 as [|e]; [done|].
    exists "". split; [compute_done|done].
  - destruct (GetPassenger_cases s id) as [(item & -> & ->)|(e & pre & -> & -> & Hpre)];
      [done|].
    exists pre. split; [|done].
    revert Hpre. rewrite !elem_of_cons. unfold prefixes. rewrite !elem_of_cons. tauto.
  - rewrite GetAllPassengers_calls. destruct (exec_GetAllPassengers h s) as [-> _].
    destruct (h (scanRequest "passengers") s).1 as [out|e].
    + destruct (collect _ _) as [ps|e]; [done|].
      exists "Got error unmarshalling: ". split; [compute_done|done].
    + exists "Query API call failed: ". split; [compute_done|done].
  - intros e. rewrite exec_GetAllFlights. cbv zeta.
    destruct (h (scanRequest "flights") s).1 as [out|e'].
    + project. intros He.
      pose proof (flights_loop_failure (ScanOutput.Items out) []
                    (h (scanRequest "flights") s).2 e He) as (pre & Hpre & Hlast).
      exists pre. split; [done|].
      change (last ([scanRequest "flights"] ++
                    calls (exec h (GetAllFlights_loop (ScanOutput.Items out) [])
                             (h (scanRequest "flights") s).2))
              = Some (error_line pre e)).
      by rewrite last_app, Hlast.
    + project. intros [= <-].
      exists "Query API call failed: ". split; [compute_done|done].
  - intros Hq. rewrite exec_GetAllFlights. cbv zeta.
    destruct (h (scanRequest "flights") s).1 as [out|e].
    + project.
      pose proof (flights_loop_logged (ScanOutput.Items out) []
                    (h (scanRequest "flights") s).2 Hq) as Hl. cbv zeta in Hl.
      destruct (value (exec h (GetAllFlights_loop _ _) _)).2 as [e|].
      * destruct Hl as (pre & Hpre & Hlast). exists pre. split; [done|].
        change (last ([scanRequest "flights"] ++
                      calls (exec h (GetAllFlights_loop (ScanOutput.Items out) [])
                               (h (scanRequest "flights") s).2))
                = Some (error_line pre e)).
        by rewrite last_app, Hlast.
      * exact Hl.
    + exists "Query API call failed: ". split; [compute_done|done].
Qed.

(** *** The flight listing when the package-level [GetPassenger] is a point lookup *)

Lemma GetPassenger_point_lookup : point_lookup (pkg := spec_GetPassenger) h.
Proof. intros id s. apply GetPassenger_cases. Qed.

Lemma convert_loop_cases ids fl s :
  point_lookup h ->
  let o := exec h (convertDynamoFlightToFlight_loop ids fl) s in
  (exists ps, value o = (Some (with_passengers fl ps), None) /\
              length ps = length ids /\ Forall is_Some ps /\
              calls o = getRequest <$> ids) \/
  (exists e ids1 id ids2 pre,
      value o = (None, Some e) /\ ids = ids1 ++ id :: ids2 /\
      calls o = (getRequest <$> ids1)
                ++ [getRequest id; error_line pre e;
                    error_line "Query API call failed: " e] /\
      pre ∈ ["Query API call failed: "; "Got error unmarshalling: "]).
Proof.
  intros Hpl. revert fl s. induction ids as [|id rest IH]; intros fl s; cbv zeta.
  - left. exists []. simpl. destruct fl. unfold with_passengers. simpl.
    rewrite app_nil_r. repeat split. constructor.
  - rewrite convert_loop_cons. cbv zeta.
    destruct (Hpl id s) as [(item & Hv & Hc)|(e & pre & Hv & Hc & Hpre)];
      rewrite Hv, Hc.
    + destruct (IH (with_passenger fl (Some item)) (world (exec h (func_GetPassenger id) s)))
        as [(ps & Hv' & Hl & Hs & Hc')|(e & ids1 & id' & ids2 & pre & Hv' & Hi & Hc' & Hpre)];
        project; rewrite Hv', Hc'.
      * left. exists (Some item :: ps). rewrite <- with_passengers_cons.
        repeat split; simpl; [by rewrite Hl|by constructor].
      * right. exists e, (id :: ids1), id', ids2, pre. rewrite Hi. repeat split. done.
    + right. exists e, [], id, rest, pre. repeat split. done.
Qed.

Lemma flights_loop_cases items acc s :
  point_lookup h ->
  let o := exec h (GetAllFlights_loop items acc) s in
  (exists fls,
      value o = (acc ++ fls, None) /\
      Forall2 (fun item fo => exists df fl,
                   UnmarshalMap_DynamoFlight item = inl df /\ fo = Some fl /\ shows df fl)
        items fls /\
      calls o = getRequest <$> (items ≫= passenger_ids)) \/
  (exists e pre,
      value o = ([], Some e) /\ pre ∈ prefixes /\
      last (calls o) = Some (error_line pre e) /\
      forallb is_read_only (calls o) = true).
Proof.
  intros Hpl. revert acc s. induction items as [|item rest IH]; intros acc s; cbv zeta.
  - left. exists []. simpl. rewrite app_nil_r. repeat split. constructor.
  - rewrite flights_loop_cons.
    destruct (UnmarshalMap_DynamoFlight item) as [df|e] eqn:Hdf.
    2: { right. exists e, "Got error unmarshalling: ". repeat split. compute_done. }
    cbv zeta.
    pose proof (convert_loop_cases (Passengers df) (flight0 df) s Hpl) as Hconv.
    change (convertDynamoFlightToFlight_loop (Passengers df) (flight0 df))
      with (convertDynamoFlightToFlight df) in Hconv. cbv zeta in Hconv.
    destruct Hconv as [(ps & Hv & Hl & Hs & Hc)
                      |(e & ids1 & id & ids2 & pre & Hv & Hi & Hc & Hpre)];
      rewrite Hv, Hc.
    + destruct (IH (acc ++ [Some (with_passengers (flight0 df) ps)])
                  (world (exec h (convertDynamoFlightToFlight df) s)))
        as [(fls & Hv' & Hf & Hc')|(e & pre & Hv' & Hpre & Hlast & Hro)];
        project; rewrite Hv'.
      * left. exists (Some (with_passengers (flight0 df) ps) :: fls).
        rewrite <- app_assoc. split; [done|]. split.
        -- constructor; [|done]. exists df, (with_passengers (flight0 df) ps).
           repeat split; simpl; done.
        -- rewrite Hc'. simpl. unfold passenger_ids at 2. rewrite Hdf.
           by rewrite fmap_app.
      * right. exists e, pre. split; [done|]. split; [done|]. split.
        -- by rewrite last_app, Hlast.
        -- rewrite forallb_app, Hro, andb_true_r. clear.
           by induction (Passengers df).
    + right. exists e, "Query API call failed: ". project.
      split; [done|]. split; [compute_done|]. split.
      * by rewrite last_app.
      * rewrite forallb_app. simpl. rewrite andb_true_r. clear. by induction ids1.
Qed.

(** X6.  As long as the package-level [GetPassenger] is a point lookup (one
    [GetItem] of the id, and a line of output when it fails): when
    [GetAllFlights] succeeds, the calls it made are the scan of the flights
    table followed by one point lookup for each passenger id of each item, in
    the order of the response and of each item's id list, and nothing else:
    one request more than there are passenger ids. *)
Theorem GetAllFlights_round_trips (s : St) (out : ScanOutput.t)
    (flights : list (option model.Flight)) :
  point_lookup h ->
  (h (scanRequest "flights") s).1 = inl out ->
  value (exec h GetAllFlights s) = (flights, None) ->
  calls (exec h GetAllFlights s)
  = scanRequest "flights" :: (getRequest <$> (ScanOutput.Items out ≫= passenger_ids)) /\
  length (calls (exec h GetAllFlights s))
  = Datatypes.S (length (ScanOutput.Items out ≫= passenger_ids)).
Proof.
  intros Hpl. rewrite exec_GetAllFlights. cbv zeta. intros ->. project.
  destruct (flights_loop_cases (ScanOutput.Items out) [] (h (scanRequest "flights") s).2 Hpl)
    as [(fls & Hv & _ & Hc)|(e & pre & Hv & _)]; rewrite Hv; [|done].
  intros _. rewrite Hc. split; [done|]. simpl. by rewrite length_fmap.
Qed.

(** X9.  As long as the package-level [GetPassenger] is a point lookup (one
    [GetItem] of the id, and a line of output when it fails): when
    [convertDynamoFlightToFlight] fails, it fails at the first passenger id
    whose lookup fails: it has looked up the ids before it and that id, none
    after it, returns no flight, and the error was printed twice, once by
    the lookup and once more by the conversion. *)
Theorem failed_lookup_is_logged_twice (s : St) (df : DynamoFlight)
    (r : option model.Flight) (e : error) :
  point_lookup h ->
  value (exec h (convertDynamoFlightToFlight df) s) = (r, Some e) ->
  let o := exec h (convertDynamoFlightToFlight df) s in
  r = None /\
  exists ids1 id ids2 pre,
    Passengers df = ids1 ++ id :: ids2 /\
    List.filter is_store_call (calls o) = getRequest <$> (ids1 ++ [id]) /\
    pre ∈ ["Query API call failed: "; "Got error unmarshalling: "] /\
    List.filter is_Print (calls o)
    = [error_line pre e; error_line "Query API call failed: " e].
Proof.
  intros Hpl Hv. cbv zeta.
  pose proof (convert_loop_cases (Passengers df) (flight0 df) s Hpl) as Hconv.
  change (convertDynamoFlightToFlight_loop (Passengers df) (flight0 df))
    with (convertDynamoFlightToFlight df) in Hconv. cbv zeta in Hconv.
  destruct Hconv as [(ps & Hv' & _)|(e' & ids1 & id & ids2 & pre & Hv' & Hi & Hc & Hpre)];
    rewrite Hv' in Hv; [done|].
  injection Hv as <- <-. split; [done|].
  exists ids1, id, ids2, pre. rewrite Hc, !List.filter_app.
  destruct (lookups_are_quiet_reads ids1) as (_ & -> & ->).
  repeat split; try done. by rewrite fmap_app.
Qed.

End more_package_properties.

(** ** Further properties that rest on what the store does *)
Section more_store_properties.
Import Mem.

Lemma update_row_other c kn k k' f rows rows' :
  k <> k' ->
  (forall r r', f r = inl r' -> r' !! kn = r !! kn) ->
  update_row c kn k f rows = inl rows' ->
  lookup_row kn k' rows' = lookup_row kn k' rows.
Proof.
  intros Hne Hf. unfold lookup_row. revert rows'.
  induction rows as [|row rows IH]; intros rows'; simpl.
  - destruct c; [|done]. destruct (f _) as [row'|] eqn:Hr; [|done]. intros [= <-].
    simpl. unfold has_key. rewrite (Hf _ _ Hr), lookup_singleton_eq.
    rewrite bool_decide_false; [done|]. by intros [= ->].
  - destruct (has_key kn k row) eqn:Hk; simpl.
    + destruct (f row) as [row'|] eqn:Hr; [|done]. intros [= <-]. simpl.
      apply has_key_true in Hk. unfold has_key. rewrite (Hf _ _ Hr), Hk.
      rewrite bool_decide_false; [done|]. by intros [= ->].
    + destruct (update_row c kn k f rows) as [rest'|] eqn:Hu; [|done]. intros [= <-].
      simpl. by rewrite (IH _ eq_refl).
Qed.

Lemma do_UpdateItem_set_inr add f p tables e tables' :
  do_UpdateItem (setInput (verb_of add) f p) tables = (inr e, tables') -> tables' = tables.
Proof.
  rewrite do_UpdateItem_set.
  destruct (tables !! "flights") as [tb|]; [|by intros [= _ <-]].
  destruct (bool_decide _); [|by intros [= _ <-]].
  destruct (update_row _ _ _ _ _); [done|by intros [= _ <-]].
Qed.

(** An update of flight [f] leaves the passengers table and the passenger
    sets of the other flights as they were. *)
Lemma do_UpdateItem_set_frame add f p (tables : Store) :
  let tables' := (do_UpdateItem (setInput (verb_of add) f p) tables).2 in
  tables' !! "passengers" = tables !! "passengers" /\
  forall f', f' <> f -> passenger_set tables' f' = passenger_set tables f'.
Proof.
  cbv zeta. rewrite do_UpdateItem_set.
  destruct (tables !! "flights") as [tb|] eqn:Ht; [|done].
  destruct (bool_decide (KeySchema tb = "number" /\ f <> "")) eqn:Hk; [|done].
  apply bool_decide_eq_true in Hk as [Hk Hf].
  destruct (update_row _ _ _ _ _) as [rows'|] eqn:Hu; [|done].
  cbn [snd]. unfold with_rows. split; [by rewrite lookup_insert_ne|].
  intros f' Hne. unfold passenger_set. rewrite lookup_insert_eq, Ht.
  unfold row_of. cbn [set_rows KeySchema Rows]. rewrite Hk.
  rewrite (update_row_other _ _ f f' _ _ _ (not_eq_sym Hne) (fun r r' Hr => proj2 (set_op_idem add p r r' Hr)) Hu).
  done.
Qed.

Lemma list_difference_app (a b k : list string) :
  list_difference (a ++ b) k = list_difference a k ++ list_difference b k.
Proof.
  induction a as [|x a IH]; simpl; [done|].
  destruct (decide_rel elem_of x k); [done|]. simpl. by rewrite IH.
Qed.





(** X14.  Bookings and cancellations keep every passenger set free of
    duplicates: a set that has none before [BookFlight] or [CancelBooking],
    of any flight and passenger, has none after it. *)
Theorem passenger_sets_stay_duplicate_free (w : World) (f p f' : string) :
  NoDup (passenger_set (Tables w) f') ->
  NoDup (passenger_set (Tables (world (exec handle (BookFlight f p) w))) f') /\
  NoDup (passenger_set (Tables (world (exec handle (CancelBooking f p) w))) f').
Proof.
  intros Hnd.
  destruct (Mem_BookFlight w f p) as [-> _]. destruct (Mem_CancelBooking w f p) as [-> _].
  destruct (decide (f' = f)) as [->|Hne].
  2: { destruct (do_UpdateItem_set_frame true f p (Tables w)) as [_ Hb].
       destruct (do_UpdateItem_set_frame false f p (Tables w)) as [_ Hc].
       cbv zeta in Hb, Hc. by rewrite Hb, Hc. }
  split.
  - destruct (do_UpdateItem (setInput "ADD" f p) (Tables w)) as [[u|e] t] eqn:Hd.
    + cbn [snd]. rewrite (passenger_set_ADD _ _ _ _ _ Hd).
      apply NoDup_app. split; [done|]. split.
      * intros x Hx Hx'. by apply list_elem_of_difference in Hx' as [_ ?].
      * apply NoDup_list_difference. apply NoDup_singleton.
    + by rewrite (do_UpdateItem_set_inr true _ _ _ _ _ Hd).
  - destruct (do_UpdateItem (setInput "DELETE" f p) (Tables w)) as [[u|e] t] eqn:Hd.
    + cbn [snd]. rewrite (passenger_set_DELETE _ _ _ _ _ Hd).
      by apply NoDup_list_difference.
    + by rewrite (do_UpdateItem_set_inr false _ _ _ _ _ Hd).
Qed.

(** A cancellation that follows a booking that succeeded succeeds. *)
Lemma Mem_cancel_after_book (tables t1 : Store) f p u :
  do_UpdateItem (setInput "ADD" f p) tables = (inl u, t1) ->
  exists t2, do_UpdateItem (setInput "DELETE" f p) t1 = (inl tt, t2).
Proof.
  intros Hadd.
  pose proof (do_UpdateItem_set_inl true _ _ _ _ _ Hadd)
    as (tb & rows1 & row1 & Ht & Hk & Hf & -> & Hop & Hl).
  destruct (add_set_typed _ _ _ _ Hop) as [l1 Hr1].
  apply (do_DELETE_ok _ (set_rows tb rows1) row1 f p l1); try done.
  apply lookup_insert_eq.
Qed.

(** X11.  [CancelBooking] undoes [BookFlight]: after a booking that
    succeeded, the cancellation succeeds and leaves the flight's passenger
    set as it was before the booking, less [p]; in particular exactly as it
    was when [p] was not booked before. *)
Theorem CancelBooking_undoes_BookFlight (w : World) (f p : string) :
  value (exec handle (BookFlight f p) w) = (true, None) ->
  let w1 := world (exec handle (BookFlight f p) w) in
  let o2 := exec handle (CancelBooking f p) w1 in
  value o2 = (true, None) /\
  passenger_set (Tables (world o2)) f = list_difference (passenger_set (Tables w) f) [p] /\
  (p ∉ passenger_set (Tables w) f ->
   passenger_set (Tables (world o2)) f = passenger_set (Tables w) f).
Proof.
  intros Hbook. cbv zeta.
  destruct (Mem_BookFlight w f p) as [Ht1 Hv1]. rewrite Hbook in Hv1.
  destruct (do_UpdateItem (setInput "ADD" f p) (Tables w)) as [[u|e] t1] eqn:Hadd; [|done].
  cbn [fst snd] in Ht1.
  destruct (Mem_cancel_after_book _ _ _ _ _ Hadd) as [t2 Hdel].
  destruct (Mem_CancelBooking (world (exec handle (BookFlight f p) w)) f p) as [Ht2 Hv2].
  rewrite Ht1, Hdel in Ht2, Hv2. cbn [fst snd] in Ht2, Hv2.
  assert (passenger_set t2 f = list_difference (passenger_set (Tables w) f) [p]) as Hset.
  { rewrite (passenger_set_DELETE _ _ _ _ _ Hdel), (passenger_set_ADD _ _ _ _ _ Hadd).
    rewrite list_difference_app.
    rewrite (list_difference_covered (list_difference [p] _) [p]); [by rewrite app_nil_r|].
    intros x Hx. by apply list_elem_of_difference in Hx as [? _]. }
  rewrite Ht2. split; [done|]. split; [done|].
  intros Hnot. rewrite Hset. apply list_difference_disjoint.
  intros x Hx Hxp. by apply list_elem_of_singleton in Hxp as ->.
Qed.

(** X13.  With the package-level [GetPassenger] modelled from the spec as
    the point lookup, [GetAllFlights] does not notice a passenger id that no
    passenger is stored under: the listing succeeds and shows, at that id's
    place in the flight's passenger list, a zero-valued passenger. *)
Theorem GetAllFlights_lists_dangling_ids
    (w : World) (ft pt : Table) (i j : nat) (row : Item) (df : DynamoFlight) (id : string) :
  Tables w !! "flights" = Some ft ->
  Tables w !! "passengers" = Some pt -> KeySchema pt = "id" ->
  Forall (readable pt) (take (PageLimit w) (Rows ft)) ->
  take (PageLimit w) (Rows ft) !! i = Some row ->
  unmarshal_DynamoFlight row = inl df ->
  Passengers df !! j = Some id ->
  lookup_row "id" id (Rows pt) = None ->
  exists flights fl,
    value (exec handle (GetAllFlights (pkg := spec_GetPassenger)) w) = (flights, None) /\
    flights !! i = Some (Some fl) /\
    model.Passengers fl !! j = Some (Some zero_Passenger).
Proof.
  intros Hf Ht Hk Hall Hrow Hdf Hid Habsent.
  destruct (Mem_GetAllFlights w ft pt Hf Ht Hk Hall) as (fls & Hfls & Hex).
  rewrite Hex. project.
  destruct (Forall2_lookup_l _ _ _ _ _ Hfls Hrow) as (fl & Hfl & df' & ps & Hdf' & Hps & ->).
  rewrite Hdf in Hdf'. injection Hdf' as <-.
  destruct (Forall2_lookup_l _ _ _ _ _ Hps Hid) as (P & HP & Hst).
  exists (Some <$> fls), (with_passengers (flight0 df) (Some <$> ps)).
  split; [done|]. split; [by rewrite list_lookup_fmap, Hfl|].
  simpl. rewrite list_lookup_fmap, HP. simpl. do 2 f_equal.
  unfold stored_passenger, row_of in Hst. rewrite Hk, Habsent in Hst.
  by injection Hst as <-.
Qed.

(** Running a program on the store leaves the random source as it is and
    advances its position by the number of UUIDs drawn. *)
Lemma Mem_random_source {T} (p : Prog T) (w : World) :
  let o := exec handle p w in
  Entropy (world o) = Entropy w /\
  Draws (world o) = Draws w + length (List.filter is_uuid_New (calls o)).
Proof.
  revert w. induction p as [x|a k IH]; intros w; cbv zeta.
  - unfold world, calls. simpl. split; [done|lia].
  - simpl. destruct (handle a w) as [r w1] eqn:Ha.
    specialize (IH r w1). cbv zeta in IH.
    destruct (exec handle (k r) w1) as [[x w2] tr]. project.
    destruct IH as [-> ->].
    assert (Entropy w1 = Entropy w /\
            Draws w1 = Draws w + (if is_uuid_New a then 1 else 0)) as [-> ->].
    { destruct a; simpl in Ha;
        try (destruct (_ _ (Tables w)) as [? ?]); injection Ha as <- <-;
        simpl; split; (done || lia). }
    split; [done|]. cbn [List.filter]. destruct (is_uuid_New a); simpl; lia.
Qed.

(** X15.  [CreatePassenger] does not guard against an id that is already
    taken: when the random source yields the same UUID twice, the second
    creation succeeds under the first one's id and replaces its record, which
    a lookup of that id then returns. *)
Theorem CreatePassenger_overwrites_on_collision
    (w : World) (pt : Table) (name1 name2 : string) :
  Tables w !! "passengers" = Some pt -> KeySchema pt = "id" ->
  Entropy w (Datatypes.S (Draws w)) = Entropy w (Draws w) ->
  let id := uuid.String (Entropy w (Draws w)) in
  let o1 := exec handle (CreatePassenger name1) w in
  let o2 := exec handle (CreatePassenger name2) (world o1) in
  value o1 = (Some {| model.ID := id; model.Name := name1 |}, None) /\
  value o2 = (Some {| model.ID := id; model.Name := name2 |}, None) /\
  value (exec handle (GetPassenger id) (world o2))
  = (Some {| model.ID := id; model.Name := name2 |}, None).
Proof.
  intros Ht Hk Hsame. cbv zeta.
  destruct (Mem_CreatePassenger w pt name1 Ht Hk) as (Hv1 & rows1 & Htab1 & _).
  set (w1 := world (exec handle (CreatePassenger name1) w)) in *.
  assert (Entropy w1 = Entropy w /\ Draws w1 = Datatypes.S (Draws w)) as [He Hd].
  { destruct (Mem_random_source (CreatePassenger name1) w) as [He Hd]. fold w1 in He, Hd.
    split; [done|]. rewrite Hd. clear -Hv1.
    rewrite exec_CreatePassenger in Hv1 |- *. cbv zeta in Hv1 |- *.
    destruct (MarshalMap _) as [av|e]; [|done].
    destruct (handle (putRequest av) _).1; [|done]. simpl. lia. }
  assert (Tables w1 !! "passengers" = Some (set_rows pt rows1)) as Ht1
    by (rewrite Htab1; apply lookup_insert_eq).
  destruct (Mem_CreatePassenger w1 (set_rows pt rows1) name2 Ht1 Hk)
    as (Hv2 & rows2 & Htab2 & Hst2).
  rewrite He, Hd, Hsame in Hv2, Hst2.
  split; [done|]. split; [done|].
  erewrite Mem_GetPassenger; [done| | | |exact Hst2].
  - rewrite Htab2. apply lookup_insert_eq.
  - done.
  - apply String_nonempty.
Qed.

End more_store_properties.

(** ** The further properties at sample worlds

    Here too the package-level [GetPassenger] is the point lookup,
    [spec_GetPassenger]. *)
Section more_samples.
Import Mem.

Lemma GetAllPassengers_in_response_order_witness :
  value (exec handle GetAllPassengers Demo.small) = ([Some Demo.Alice; Some Demo.Bob], None) /\
  Forall2 (fun item p => exists x, UnmarshalMap_Passenger item = inl x /\ p = Some x)
    [Demo.alice; Demo.bob] [Some Demo.Alice; Some Demo.Bob].
Proof.
  assert (value (exec handle GetAllPassengers Demo.small)
          = ([Some Demo.Alice; Some Demo.Bob], None)) as Hv by (vm_compute; reflexivity).
  split; [exact Hv|].
  refine (GetAllPassengers_in_response_order handle Demo.small
            {| ScanOutput.Items := [Demo.alice; Demo.bob];
               ScanOutput.LastEvaluatedKey := None |} _ _ Hv).
  vm_compute. reflexivity.
Defined.

Lemma reads_never_write_witness :
  forallb is_read_only (calls (exec handle (GetPassenger "p1") Demo.faulty)) = true /\
  forallb is_read_only (calls (exec handle GetAllPassengers Demo.faulty)) = true /\
  forallb is_read_only (calls (exec handle GetAllFlights Demo.faulty)) = true /\
  length (calls (exec handle GetAllFlights Demo.faulty)) = 7.
Proof.
  destruct (reads_never_write handle Demo.faulty "p1") as (Hg & Hp & Hf).
  split; [exact Hg|]. split; [exact Hp|]. split; [|vm_compute; reflexivity].
  apply Hf. intros id' s'. apply GetPassenger_read_only.
Defined.

Lemma GetAllFlights_round_trips_witness :
  let out := {| ScanOutput.Items := [Demo.BA100; Demo.QF1];
                ScanOutput.LastEvaluatedKey := None |} in
  ScanOutput.Items out ≫= passenger_ids = ["p2"; "p1"] /\
  calls (exec handle GetAllFlights Demo.small)
  = scanRequest "flights" :: (getRequest <$> (ScanOutput.Items out ≫= passenger_ids)) /\
  length (calls (exec handle GetAllFlights Demo.small)) = 3.
Proof.
  cbv zeta. split; [vm_compute; reflexivity|].
  assert ((value (exec handle GetAllFlights Demo.small)).2 = None) as Hnil
    by (vm_compute; reflexivity).
  destruct (value (exec handle GetAllFlights Demo.small)) as [flights err] eqn:Hv.
  simpl in Hnil. subst err.
  destruct (GetAllFlights_round_trips handle Demo.small
              {| ScanOutput.Items := [Demo.BA100; Demo.QF1];
                 ScanOutput.LastEvaluatedKey := None |} flights) as [Hc Hl].
  - apply GetPassenger_point_lookup.
  - vm_compute. reflexivity.
  - exact Hv.
  - split; [exact Hc|]. rewrite Hl. vm_compute. reflexivity.
Defined.

Lemma GetAllFlights_in_response_order_witness :
  exists flights,
    value (exec handle GetAllFlights Sample.full) = (flights, None) /\
    Forall2 lists [Demo.BA100; Demo.LH400; Demo.QF1] flights /\
    Forall2 (fun item fo => exists df fl,
                 UnmarshalMap_DynamoFlight item = inl df /\ fo = Some fl /\ shows df fl)
      [Demo.BA100; Demo.LH400; Demo.QF1] flights.
Proof.
  assert ((value (exec handle GetAllFlights Sample.full)).2 = None) as Hnil
    by (vm_compute; reflexivity).
  destruct (value (exec handle GetAllFlights Sample.full)) as [flights err] eqn:Hv.
  simpl in Hnil. subst err. exists flights. split; [reflexivity|].
  destruct (GetAllFlights_in_response_order handle Sample.full
              {| ScanOutput.Items := [Demo.BA100; Demo.LH400; Demo.QF1];
                 ScanOutput.LastEvaluatedKey := None |} flights) as [Hrows Hsome].
  - vm_compute. reflexivity.
  - exact Hv.
  - split; [exact Hrows|]. apply Hsome. intros id s'. apply GetPassenger_not_nil_nil.
Defined.

Lemma errors_are_logged_witness :
  (value (exec handle GetAllFlights Sample.full)).2 = None /\
  List.filter is_Print (calls (exec handle GetAllFlights Sample.full)) = [] /\
  value (exec handle GetAllFlights Demo.faulty) = ([], Some UnmarshalTypeError) /\
  exists pre, pre ∈ prefixes /\
    last (calls (exec handle GetAllFlights Demo.faulty))
    = Some (error_line pre UnmarshalTypeError).
Proof.
  assert ((value (exec handle GetAllFlights Sample.full)).2 = None) as Hok
    by (vm_compute; reflexivity).
  assert (value (exec handle GetAllFlights Demo.faulty) = ([], Some UnmarshalTypeError))
    as Hbad by (vm_compute; reflexivity).
  split; [exact Hok|]. split; [|split; [exact Hbad|]].
  - destruct (errors_are_logged handle Sample.full "p1" "Alice" "BA100" "p1")
      as (_ & _ & _ & _ & _ & _ & _ & Hf).
    cbv zeta in Hf. rewrite Hok in Hf. apply Hf.
    intros id' s'. apply GetPassenger_quiet.
  - destruct (errors_are_logged handle Demo.faulty "p1" "Alice" "BA100" "p1")
      as (_ & _ & _ & _ & _ & _ & Hf & _).
    cbv zeta in Hf. apply Hf. by rewrite Hbad.
Defined.

Lemma failed_lookup_is_logged_twice_witness :
  let o := exec handle (convertDynamoFlightToFlight Demo.LH400_record) Demo.faulty in
  value o = (None, Some UnmarshalTypeError) /\
  exists ids1 id ids2 pre,
    Passengers Demo.LH400_record = ids1 ++ id :: ids2 /\
    List.filter is_store_call (calls o) = getRequest <$> (ids1 ++ [id]) /\
    pre ∈ ["Query API call failed: "; "Got error unmarshalling: "] /\
    List.filter is_Print (calls o)
    = [error_line pre UnmarshalTypeError;
       error_line "Query API call failed: " UnmarshalTypeError].
Proof.
  cbv zeta.
  assert (value (exec handle (convertDynamoFlightToFlight Demo.LH400_record) Demo.faulty)
          = (None, Some UnmarshalTypeError)) as Hv by (vm_compute; reflexivity).
  split; [exact Hv|].
  exact (proj2 (failed_lookup_is_logged_twice handle Demo.faulty Demo.LH400_record
                  None UnmarshalTypeError (GetPassenger_point_lookup handle) Hv)).
Defined.

Lemma nothing_to_list_witness :
  value (exec handle GetAllPassengers Sample.empty) = ([], None) /\
  calls (exec handle GetAllPassengers Sample.empty) = [scanRequest "passengers"] /\
  value (exec handle GetAllFlights Sample.empty) = ([], None) /\
  calls (exec handle GetAllFlights Sample.empty) = [scanRequest "flights"] /\
  exec handle (convertDynamoFlightToFlight
                 {| Number := "QF1"; Passengers := []; Capacity := 2;
                    Captain := "Edsger"; Plane := "A320" |}) Sample.empty
  = ((Some {| model.Number := "QF1"; model.Capacity := 2; model.Captain := "Edsger";
              model.Plane := "A320"; model.Passengers := [] |}, None), Sample.empty, []).
Proof.
  destruct (nothing_to_list handle Sample.empty) as (Hp & Hf & Hc).
  destruct (Hp {| ScanOutput.Items := []; ScanOutput.LastEvaluatedKey := None |})
    as [Hp1 Hp2]; [vm_compute; reflexivity | reflexivity |].
  destruct (Hf {| ScanOutput.Items := []; ScanOutput.LastEvaluatedKey := None |})
    as [Hf1 Hf2]; [vm_compute; reflexivity | reflexivity |].
  split; [exact Hp1|]. split; [exact Hp2|]. split; [exact Hf1|]. split; [exact Hf2|].
  exact (Hc {| Number := "QF1"; Passengers := []; Capacity := 2;
               Captain := "Edsger"; Plane := "A320" |} eq_refl).
Defined.

Lemma CancelBooking_undoes_BookFlight_witness :
  let w1 := world (exec handle (BookFlight "QF1" "p1") Demo.small) in
  let o2 := exec handle (CancelBooking "QF1" "p1") w1 in
  value (exec handle (BookFlight "QF1" "p1") Demo.small) = (true, None) /\
  passenger_set (Tables w1) "QF1" = ["p1"] /\
  value o2 = (true, None) /\
  passenger_set (Tables (world o2)) "QF1" = passenger_set (Tables Demo.small) "QF1".
Proof.
  cbv zeta.
  assert (value (exec handle (BookFlight "QF1" "p1") Demo.small) = (true, None)) as Hbook
    by (vm_compute; reflexivity).
  destruct (CancelBooking_undoes_BookFlight Demo.small "QF1" "p1" Hbook) as (Hv & _ & Hsame).
  split; [exact Hbook|]. split; [vm_compute; reflexivity|]. split; [exact Hv|].
  apply Hsame. vm_compute. apply not_elem_of_nil.
Defined.


Lemma GetAllFlights_lists_dangling_ids_witness :
  let w := world (exec handle (DeletePassenger "p1") Demo.small) in
  exists flights fl,
    value (exec handle GetAllFlights w) = (flights, None) /\
    flights !! 0 = Some (Some fl) /\
    model.Passengers fl !! 1 = Some (Some zero_Passenger).
Proof.
  cbv zeta.
  apply (GetAllFlights_lists_dangling_ids _
           (Demo.flights [Demo.BA100; Demo.QF1]) (Demo.passengers [Demo.bob])
           0 1 Demo.BA100 Demo.BA100_record "p1").
  - vm_compute. reflexivity.
  - vm_compute. reflexivity.
  - reflexivity.
  - change (take _ _) with [Demo.BA100; Demo.QF1].
    repeat first
      [ apply Forall_nil_2
      | apply Forall_cons_2
      | eexists; split; [vm_compute; reflexivity|]
      | split; [discriminate | eexists; vm_compute; reflexivity] ].
  - vm_compute. reflexivity.
  - vm_compute. reflexivity.
  - reflexivity.
  - vm_compute. reflexivity.
Defined.

Lemma passenger_sets_stay_duplicate_free_witness :
  NoDup (passenger_set (Tables Demo.small) "BA100") /\
  NoDup (passenger_set (Tables (world (exec handle (BookFlight "BA100" "p1") Demo.small)))
           "BA100") /\
  NoDup (passenger_set (Tables (world (exec handle (CancelBooking "BA100" "p1") Demo.small)))
           "BA100").
Proof.
  assert (NoDup (passenger_set (Tables Demo.small) "BA100")) as Hnd by compute_done.
  split; [exact Hnd|].
  exact (passenger_sets_stay_duplicate_free Demo.small "BA100" "p1" "BA100" Hnd).
Defined.

Lemma CreatePassenger_overwrites_on_collision_witness :
  let o1 := exec handle (CreatePassenger "Alice") Sample.stuck in
  let o2 := exec handle (CreatePassenger "Bob") (world o1) in
  value o1 = (Some {| model.ID := Demo.id0; model.Name := "Alice" |}, None) /\
  value o2 = (Some {| model.ID := Demo.id0; model.Name := "Bob" |}, None) /\
  value (exec handle (GetPassenger Demo.id0) (world o2))
  = (Some {| model.ID := Demo.id0; model.Name := "Bob" |}, None).
Proof.
  exact (CreatePassenger_overwrites_on_collision Sample.stuck
           (Demo.passengers [Demo.alice; Demo.bob]) "Alice" "Bob" eq_refl eq_refl eq_refl).
Defined.

End more_samples.
